(** * Axlrate scrapers: a shallow embedding of the Python scraping core

    The development follows the layout of the repository:

    - [Py]        the fragment of the Python runtime the code relies on:
                  call outcomes (return / raise), the exception classes
                  that occur, [str.replace], [str.strip], [float(str)]
                  with IEEE binary64 rounding, [datetime.isoformat];
    - [DataFormatter]  scrapers/common/data_formatter.py;
    - [Float64]        subtraction and order of Python floats;
    - [RateLimit]      scrapers/common/rate_limiter.py;
    - [SeleniumUtils]  scrapers/common/selenium_utils.py;
    - [Scrapers]       scrapers/{booking,expedia,agoda,trip}/scraper.py.

    Python strings are modelled by [string]; a character is a code point
    below 256.  The wall clock is a rational number of seconds; the
    program sees it rounded to binary64 and computes in binary64
    ([Float64]). *)

From Stdlib Require Import ZArith QArith Bool List Lia Lqa.
From Stdlib Require Import Strings.Ascii Strings.String Numbers.DecimalString.
Import ListNotations.

Local Open Scope string_scope.
Local Open Scope Z_scope.

(* ===================================================================== *)
(** ** The Python runtime fragment                                        *)
(* ===================================================================== *)

Module Py.

(** Exception classes.  The first group is built in, the second comes
    from [selenium.common.exceptions]; [UserError] stands for any other
    class, identified by its name. *)
Inductive exn_class :=
| BaseException
| Exception
| ValueError
| RuntimeError
| NotImplementedError
| WebDriverException
| TimeoutException
| NoSuchElementException
| InvalidSessionIdException
| NoSuchWindowException
| StaleElementReferenceException
| InvalidSelectorException
| UserError (name : string).

(** Direct base class, [None] at the root. *)
Definition base_of (c : exn_class) : option exn_class :=
  match c with
  | BaseException => None
  | Exception => Some BaseException
  | ValueError | RuntimeError | WebDriverException | UserError _ => Some Exception
  | NotImplementedError => Some RuntimeError
  | TimeoutException | NoSuchElementException | InvalidSessionIdException
  | NoSuchWindowException | StaleElementReferenceException
  | InvalidSelectorException => Some WebDriverException
  end.

Definition exn_class_eq_dec : forall a b : exn_class, {a = b} + {a <> b}.
Proof. decide equality. apply string_dec. Defined.

Definition class_eqb (a b : exn_class) : bool :=
  if exn_class_eq_dec a b then true else false.

(** [issubclass c d]; the hierarchy has depth four. *)
Fixpoint issubclass_fuel (fuel : nat) (c d : exn_class) : bool :=
  class_eqb c d ||
  match fuel, base_of c with
  | S k, Some b => issubclass_fuel k b d
  | _, _ => false
  end.

Definition issubclass : exn_class -> exn_class -> bool := issubclass_fuel 4.

(** A raised exception: its class and its message. *)
Record exn := mkExn { exn_cls : exn_class; exn_msg : string }.

(** What a call does: it returns a value or raises. *)
Inductive outcome (A : Type) :=
| Returns (a : A)
| Raises (e : exn).
Arguments Returns {A} a.
Arguments Raises {A} e.

(** [try: body / except cls: handler]. *)
Definition try_except {A} (body : outcome A) (cls : exn_class)
           (handler : outcome A) : outcome A :=
  match body with
  | Returns a => Returns a
  | Raises e => if issubclass (exn_cls e) cls then handler else Raises e
  end.

(** *** Strings *)

Definition code (c : ascii) : Z := Z.of_N (N_of_ascii c).

(** [str.isspace] on one character: the ASCII white space of CPython's
    table (tab to carriage return, the four separators 0x1C-0x1F, space)
    and, above 127, NEL and the no-break space. *)
Definition isspace (c : ascii) : bool :=
  let n := code c in
  ((9 <=? n) && (n <=? 13)) || ((28 <=? n) && (n <=? 32))
  || (n =? 133) || (n =? 160).

(** C [isspace] in the C locale, as used inside [float()]. *)
Definition c_isspace (c : ascii) : bool :=
  let n := code c in ((9 <=? n) && (n <=? 13)) || (n =? 32).

Definition isdigit (c : ascii) : bool :=
  let n := code c in (48 <=? n) && (n <=? 57).

Definition digit_value (c : ascii) : Z := code c - 48.

(** ASCII lower-casing, for the case-insensitive [inf] and [nan]. *)
Definition lower (c : ascii) : ascii :=
  let n := code c in
  if (65 <=? n) && (n <=? 90) then ascii_of_N (Z.to_N (n + 32)) else c.

Fixpoint lower_str (s : string) : string :=
  match s with
  | EmptyString => EmptyString
  | String c s' => String (lower c) (lower_str s')
  end.

(** [s.replace(old, new)]: the leftmost occurrences of [old], not
    overlapping, are replaced.  [skip] counts the characters of a match
    still to be dropped.  With an empty [old] Python puts [new] before
    every character and at the end. *)
Fixpoint replace_from (old new s : string) (skip : nat) : string :=
  match s with
  | EmptyString => EmptyString
  | String c s' =>
      match skip with
      | S k => replace_from old new s' k
      | O =>
          if prefix old s
          then new ++ replace_from old new s' (String.length old - 1)
          else String c (replace_from old new s' O)
      end
  end.

Fixpoint intersperse_before (new s : string) : string :=
  match s with
  | EmptyString => new
  | String c s' => new ++ String c (intersperse_before new s')
  end.

Definition replace (old new s : string) : string :=
  match old with
  | EmptyString => intersperse_before new s
  | _ => replace_from old new s O
  end.

Fixpoint lstrip_by (sp : ascii -> bool) (s : string) : string :=
  match s with
  | EmptyString => EmptyString
  | String c s' => if sp c then lstrip_by sp s' else s
  end.

Fixpoint rstrip_by (sp : ascii -> bool) (s : string) : string :=
  match s with
  | EmptyString => EmptyString
  | String c s' =>
      match rstrip_by sp s' with
      | EmptyString => if sp c then EmptyString else String c EmptyString
      | r => String c r
      end
  end.

(** [s.strip()] *)
Definition strip (s : string) : string := rstrip_by isspace (lstrip_by isspace s).

(** Truth value of a string: only the empty string is false. *)
Definition truthy (s : string) : bool :=
  match s with EmptyString => false | _ => true end.

(** *** Floating-point numbers

    A Python [float] is an IEEE 754 binary64 number.  A finite non-zero
    value is [m * 2^e] with [m] below [2^53]; the values this development
    builds are in canonical form ([2^52 <= m] unless [e = -1074]). *)
Inductive pyfloat :=
| Fzero (neg : bool)
| Ffinite (neg : bool) (m : positive) (e : Z)
| Finf (neg : bool)
| Fnan (neg : bool).

(** The rational a finite float stands for. *)
Definition float_to_Q (f : pyfloat) : option Q :=
  match f with
  | Fzero _ => Some 0%Q
  | Ffinite neg m e =>
      let v := if 0 <=? e then inject_Z (Zpos m * 2 ^ e)
               else (Zpos m # Z.to_pos (2 ^ (- e)))%Q in
      Some (if neg then (- v)%Q else v)
  | _ => None
  end.

(** [n / d] rounded to an integer, ties to even ([0 <= n], [0 < d]). *)
Definition round_half_even (n d : Z) : Z :=
  let q := n / d in
  match 2 * (n mod d) ?= d with
  | Lt => q
  | Gt => q + 1
  | Eq => if Z.even q then q else q + 1
  end.

(** The binary64 number nearest to [n / d] ([0 <= n], [0 < d]), ties to
    even, with gradual underflow and overflow to infinity: what a
    correctly rounded string conversion delivers. *)
Definition b64_of_ratio (neg : bool) (n d : Z) : pyfloat :=
  if n <=? 0 then Fzero neg
  else
    let k := Z.log2 n - Z.log2 d in
    let below := if 0 <=? k then n <? d * 2 ^ k else n * 2 ^ (- k) <? d in
    let lg := if below then k - 1 else k in
    let e := Z.max (lg - 52) (-1074) in
    let m := if 0 <=? e then round_half_even n (d * 2 ^ e)
             else round_half_even (n * 2 ^ (- e)) d in
    let e' := if m =? 2 ^ 53 then e + 1 else e in
    let m' := if m =? 2 ^ 53 then 2 ^ 52 else m in
    if 971 <? e' then Finf neg
    else match m' with
         | Zpos p => Ffinite neg p e'
         | _ => Fzero neg
         end.

(** The float written [digits * 10^exp10] in decimal. *)
Definition b64_of_decimal (neg : bool) (digits exp10 : Z) : pyfloat :=
  if 0 <=? exp10 then b64_of_ratio neg (digits * 10 ^ exp10) 1
  else b64_of_ratio neg digits (10 ^ (- exp10)).

(** *** [float(str)]

    CPython's [PyFloat_FromString] on a [str]: white space above 127 is
    turned into a blank; underscores are checked (each one between two
    digits) and removed; C white space is stripped at both ends; what is
    left must be, in full, an optionally signed decimal number with
    optional fraction and exponent, or [inf], [infinity] or [nan] in any
    letter case.  Anything else raises [ValueError]; no other exception
    is raised.  The value is correctly rounded. *)

Fixpoint blank_high_spaces (s : string) : string :=
  match s with
  | EmptyString => EmptyString
  | String c s' =>
      String (if (127 <? code c) && isspace c then " "%char else c)
             (blank_high_spaces s')
  end.

(** [prev] is the previous character ([None] at the start). *)
Fixpoint underscores_ok (prev : option ascii) (s : string) : bool :=
  match s with
  | EmptyString =>
      match prev with Some "_"%char => false | _ => true end
  | String c s' =>
      let prev_digit := match prev with Some p => isdigit p | None => false end in
      let prev_us := match prev with Some "_"%char => true | _ => false end in
      (if Ascii.eqb c "_" then prev_digit
       else negb prev_us || isdigit c)
      && underscores_ok (Some c) s'
  end.

Fixpoint drop_underscores (s : string) : string :=
  match s with
  | EmptyString => EmptyString
  | String c s' =>
      if Ascii.eqb c "_" then drop_underscores s'
      else String c (drop_underscores s')
  end.

(** Reads a run of digits: the value accumulated onto [acc], how many
    digits were read onto [n], and the rest of the string. *)
Fixpoint take_digits (s : string) (acc n : Z) : Z * Z * string :=
  match s with
  | EmptyString => (acc, n, EmptyString)
  | String c s' =>
      if isdigit c then take_digits s' (10 * acc + digit_value c) (n + 1)
      else (acc, n, s)
  end.

Definition take_sign (s : string) : bool * string :=
  match s with
  | String "-"%char s' => (true, s')
  | String "+"%char s' => (false, s')
  | _ => (false, s)
  end.

(** An unsigned decimal number filling the whole string, as the pair
    (digits, power of ten); at least one digit is needed before or after
    the point, and an exponent marker needs at least one digit. *)
Definition parse_number (s : string) : option (Z * Z) :=
  let '(ip, ni, r1) := take_digits s 0 0 in
  let '(m, nf, r2) :=
    match r1 with
    | String "."%char r => take_digits r ip 0
    | _ => (ip, 0, r1)
    end in
  if ni + nf =? 0 then None
  else
    match r2 with
    | EmptyString => Some (m, - nf)
    | String c r =>
        if Ascii.eqb (lower c) "e" then
          let '(eneg, r3) := take_sign r in
          let '(ev, ne, r4) := take_digits r3 0 0 in
          if (ne =? 0) || truthy r4 then None
          else Some (m, (if eneg then - ev else ev) - nf)
        else None
    end.

Definition could_not_convert : exn :=
  mkExn ValueError "could not convert string to float".

Definition py_float (s : string) : outcome pyfloat :=
  let s0 := blank_high_spaces s in
  if negb (underscores_ok None s0) then Raises could_not_convert
  else
    let s1 := rstrip_by c_isspace (lstrip_by c_isspace (drop_underscores s0)) in
    let '(neg, body) := take_sign s1 in
    match parse_number body with
    | Some (m, e) => Returns (b64_of_decimal neg m e)
    | None =>
        let l := lower_str body in
        if String.eqb l "inf" || String.eqb l "infinity" then Returns (Finf neg)
        else if String.eqb l "nan" then Returns (Fnan neg)
        else Raises could_not_convert
    end.

(** *** [datetime] *)

(** A naive [datetime.datetime] value, as [datetime.now()] returns. *)
Record datetime := mkDatetime {
  year : N; month : N; day : N;
  hour : N; minute : N; second : N; microsecond : N
}.

Definition decimal (n : N) : string :=
  match n with
  | N0 => "0"
  | _ => NilEmpty.string_of_uint (N.to_uint n)
  end.

Fixpoint zeros (k : nat) : string :=
  match k with O => EmptyString | S k' => String "0" (zeros k') end.

(** ["%0<width>d"] *)
Definition zero_pad (width : nat) (n : N) : string :=
  let d := decimal n in zeros (width - String.length d) ++ d.

(** [datetime.isoformat()] with the default separator: the fraction is
    printed only when the microseconds are not zero. *)
Definition isoformat (t : datetime) : string :=
  zero_pad 4 (year t) ++ "-" ++ zero_pad 2 (month t) ++ "-" ++ zero_pad 2 (day t)
  ++ "T" ++ zero_pad 2 (hour t) ++ ":" ++ zero_pad 2 (minute t) ++ ":"
  ++ zero_pad 2 (second t)
  ++ (if (microsecond t =? 0)%N then EmptyString
      else "." ++ zero_pad 6 (microsecond t)).

End Py.

Import Py.

(* ===================================================================== *)
(** ** scrapers/common/data_formatter.py                                  *)
(* ===================================================================== *)

Module DataFormatter.

(** The dictionary [format_scraped_data] builds has a fixed set of keys;
    it is a record with one field per key.  The entries of [rates] and
    the raw payload are arbitrary Python values: the function is generic
    in their types. *)
Record record (Rate Raw : Type) := mkRecord {
  ota_name : string;
  hotel_name : string;
  check_in_date : string;
  check_out_date : string;
  scraped_at : string;
  rates : list Rate;
  raw_data : option Raw
}.
Arguments mkRecord {Rate Raw}.
Arguments ota_name {Rate Raw}.
Arguments hotel_name {Rate Raw}.
Arguments check_in_date {Rate Raw}.
Arguments check_out_date {Rate Raw}.
Arguments scraped_at {Rate Raw}.
Arguments rates {Rate Raw}.
Arguments raw_data {Rate Raw}.

(** [format_scraped_data]; [now] is what [datetime.now()] reads from the
    clock at the time of the call.  The body is one [return]. *)
Definition format_scraped_data {Rate Raw : Type} (now : datetime)
    (ota_name hotel_name check_in check_out : string)
    (rates : list Rate) (raw_data : option Raw)
  : outcome (record Rate Raw) :=
  Returns (mkRecord ota_name hotel_name check_in check_out
                    (isoformat now) rates raw_data).

(** [normalize_price] *)
Definition normalize_price (price_str : string) : outcome (option pyfloat) :=
  if negb (truthy price_str) then Returns None
  else
    let cleaned := strip (replace "," "" (replace "$" "" price_str)) in
    try_except
      (match py_float cleaned with
       | Returns f => Returns (Some f)
       | Raises e => Raises e
       end)
      ValueError
      (Returns None).

End DataFormatter.

(* ===================================================================== *)
(** ** Arithmetic on Python floats                                        *)
(* ===================================================================== *)

Module Float64.

Local Open Scope Q_scope.

(** The binary64 number nearest to a rational (ties to even). *)
Definition b64_of_Q (q : Q) : pyfloat :=
  match Qnum q with
  | Z0 => Fzero false
  | Zpos n => b64_of_ratio false (Zpos n) (Zpos (Qden q))
  | Zneg n => b64_of_ratio true (Zpos n) (Zpos (Qden q))
  end.

Definition fneg (x : pyfloat) : pyfloat :=
  match x with
  | Fzero s => Fzero (negb s)
  | Ffinite s m e => Ffinite (negb s) m e
  | Finf s => Finf (negb s)
  | Fnan s => Fnan (negb s)
  end.

(** [x - y] as IEEE 754 defines it: a NaN operand comes back, equal
    infinities give a NaN, zeros keep the signs the standard gives them,
    subtracting a zero changes nothing, and the exact difference of two
    finite numbers is rounded to nearest ([+0.0] when it is zero). *)
Definition fsub (x y : pyfloat) : pyfloat :=
  match x, y with
  | Fnan _, _ => x
  | _, Fnan _ => y
  | Finf sx, Finf sy => if Bool.eqb sx sy then Fnan true else x
  | Finf _, _ => x
  | _, Finf sy => Finf (negb sy)
  | Fzero sx, Fzero sy => Fzero (sx && negb sy)
  | _, Fzero _ => x
  | Fzero _, _ => fneg y
  | Ffinite _ _ _, Ffinite _ _ _ =>
      match float_to_Q x, float_to_Q y with
      | Some a, Some b =>
          if Qeq_bool a b then Fzero false else b64_of_Q (a - b)
      | _, _ => Fnan false
      end
  end.

(** The order of two floats; a NaN compares with nothing. *)
Definition fcompare (x y : pyfloat) : option comparison :=
  match x, y with
  | Fnan _, _ | _, Fnan _ => None
  | Finf sx, Finf sy =>
      Some (if Bool.eqb sx sy then Eq else if sx then Lt else Gt)
  | Finf sx, _ => Some (if sx then Lt else Gt)
  | _, Finf sy => Some (if sy then Gt else Lt)
  | _, _ =>
      match float_to_Q x, float_to_Q y with
      | Some a, Some b => Some (a ?= b)
      | _, _ => None
      end
  end.

(** [x < y] and [x <= y] on floats. *)
Definition flt (x y : pyfloat) : bool :=
  match fcompare x y with Some Lt => true | _ => false end.

Definition fle (x y : pyfloat) : bool :=
  match fcompare x y with Some Lt | Some Eq => true | _ => false end.

End Float64.

(* ===================================================================== *)
(** ** scrapers/common/rate_limiter.py                                    *)
(* ===================================================================== *)

Module RateLimit.

Import Float64.
Local Open Scope Q_scope.

(** The part of the world the limiter touches: the wall clock (seconds
    since the epoch, a real quantity), the delays the environment will
    impose, and the history of the durations [time.sleep] was asked
    for.  Each call of [time.time] or [time.sleep] takes the next delay
    off [schedule]: for [time.time] it is the time that has gone by
    since the previous call, for [time.sleep] it is by how much the
    sleep overshoots.  An exhausted schedule means no further delay. *)
Record world := mkWorld {
  clock : Q;
  schedule : list Q;
  sleeps : list pyfloat
}.

(** Computations over a state [S] that may raise; the state survives a
    raise, as the mutations of a Python object do. *)
Definition M (S A : Type) : Type := S -> outcome A * S.

Definition ret {S A} (a : A) : M S A := fun s => (Returns a, s).

Definition bind {S A B} (m : M S A) (k : A -> M S B) : M S B :=
  fun s =>
    match m s with
    | (Returns a, s') => k a s'
    | (Raises e, s') => (Raises e, s')
    end.

Notation "x <- m ;; k" := (bind m (fun x => k))
  (at level 61, m at next level, right associativity).
Notation "m ;; k" := (bind m (fun _ => k))
  (at level 61, right associativity).

Definition IO := M world.

Definition next_delay (w : world) : Q := hd 0 (schedule w).

(** [time.time()]: the clock, rounded to the nearest float. *)
Definition time_time : IO pyfloat :=
  fun w =>
    let c := clock w + next_delay w in
    (Returns (b64_of_Q c), mkWorld c (tl (schedule w)) (sleeps w)).

Definition OverflowError : exn_class := UserError "OverflowError".

(** What [time.sleep] refuses.  CPython turns the duration into a whole
    number of nanoseconds held in 64 bits: a NaN is a [ValueError]; a
    duration whose product with [1e9], computed in binary64, lies
    beyond [2^63] either way is an [OverflowError]; a negative duration
    is a [ValueError], and so is one whose product is [2^63] itself,
    which the conversion of CPython 3.11 wraps to the most negative
    number (later versions count it with the overflows). *)
Definition sleep_refusal (secs : pyfloat) : option exn :=
  match secs with
  | Fnan _ => Some (mkExn ValueError "Invalid value NaN (not a number)")
  | Finf _ =>
      Some (mkExn OverflowError "timestamp too large to convert to C _PyTime_t")
  | _ =>
      match float_to_Q secs with
      | Some v =>
          match float_to_Q (b64_of_Q (v * inject_Z (10 ^ 9))) with
          | Some ns =>
              if negb (Qle_bool ns (inject_Z (2 ^ 63)))
                 || negb (Qle_bool (inject_Z (- 2 ^ 63)) ns)
              then Some (mkExn OverflowError
                           "timestamp too large to convert to C _PyTime_t")
              else if Qeq_bool ns (inject_Z (2 ^ 63)) || negb (Qle_bool 0 v)
                   then Some (mkExn ValueError
                                "sleep length must be non-negative")
                   else None
          | None =>
              Some (mkExn OverflowError
                      "timestamp too large to convert to C _PyTime_t")
          end
      | None => None
      end
  end.

(** The length of an accepted sleep, in seconds. *)
Definition duration (secs : pyfloat) : Q :=
  match float_to_Q secs with Some v => v | None => 0 end.

(** [time.sleep(secs)]: raises as above, otherwise suspends for [secs]
    plus the overshoot (none below zero in a fair environment: the
    function promises at least [secs]). *)
Definition time_sleep (secs : pyfloat) : IO unit :=
  fun w =>
    match sleep_refusal secs with
    | Some e => (Raises e, w)
    | None =>
        (Returns tt,
         mkWorld (clock w + duration secs + next_delay w) (tl (schedule w))
                 (sleeps w ++ [secs]))
    end.

(** The attributes of a [RateLimiter] object.  [last_request_time]
    starts as the integer [0]; in the one place it is used, a
    subtraction from a float, Python turns it into [0.0]. *)
Record RateLimiter := mkRateLimiter {
  min_delay : pyfloat;
  last_request_time : pyfloat
}.

(** [RateLimiter.__init__]; the default [min_delay] is [1.0]. *)
Definition default_min_delay : pyfloat := b64_of_decimal false 10 (-1).

Definition init (min_delay : pyfloat) : RateLimiter :=
  mkRateLimiter min_delay (Fzero false).

(** A method runs on the object and the world. *)
Definition Method := M (RateLimiter * world).

Definition lift {A} (m : IO A) : Method A :=
  fun st =>
    let '(r, w') := m (snd st) in (r, (fst st, w')).

Definition self_ : Method RateLimiter := fun st => (Returns (fst st), st).

Definition set_last_request_time (t : pyfloat) : Method unit :=
  fun st =>
    (Returns tt, (mkRateLimiter (min_delay (fst st)) t, snd st)).

(** [RateLimiter.wait] *)
Definition wait : Method unit :=
  current_time <- lift time_time ;;
  self <- self_ ;;
  let time_since_last := fsub current_time (last_request_time self) in
  (if flt time_since_last (min_delay self) then
     let sleep_time := fsub (min_delay self) time_since_last in
     lift (time_sleep sleep_time)
   else ret tt) ;;
  t <- lift time_time ;;
  set_last_request_time t.

(** [RateLimiter.__call__]: the decorated function.  The wrapped
    function is any computation on the world; it has no access to the
    limiter. *)
Definition wrapper {B} (func : IO B) : Method B :=
  wait ;; lift func.

Definition call {B} (func : IO B) : Method B := wrapper func.

(** A wrapped function made to report the clock at which it is
    entered. *)
Definition probe {B} (func : IO B) : IO Q :=
  fun w => (Returns (clock w), snd (func w)).

(** A caller issuing gated calls one after the other, going on whether
    or not a call raised.  The list holds, for each call whose function
    was entered, its effective start time: the clock at that moment. *)
Fixpoint start_times {B} (funcs : list (IO B)) (st : RateLimiter * world)
  : list Q :=
  match funcs with
  | [] => []
  | f :: fs =>
      match call (probe f) st with
      | (Returns t, st') => t :: start_times fs st'
      | (Raises _, st') => start_times fs st'
      end
  end.



(** A wrapped function that takes some time and returns [tt]. *)
Definition busy (secs : pyfloat) : IO unit := time_sleep secs.





End RateLimit.

(* ===================================================================== *)
(** ** scrapers/common/selenium_utils.py                                  *)
(* ===================================================================== *)

Module SeleniumUtils.

(** [selenium.webdriver.common.by.By] *)
Inductive By :=
| ID | XPATH | LINK_TEXT | PARTIAL_LINK_TEXT
| NAME | TAG_NAME | CLASS_NAME | CSS_SELECTOR.

Definition locator : Type := By * string.

(** The two conditions of [expected_conditions] the module waits for. *)
Inductive expected_condition :=
| presence_of_element_located (l : locator)
| element_to_be_clickable (l : locator).

(** What the module asks of Selenium: the two lookups of a driver, and
    [WebDriverWait(driver, timeout).until(condition)], which returns the
    element the condition produced or raises [TimeoutException]. *)
Class WebDriver (Driver Element : Type) := {
  find_element : Driver -> By -> string -> outcome Element;
  find_elements : Driver -> By -> string -> outcome (list Element);
  WebDriverWait_until : Driver -> Z -> expected_condition -> outcome Element
}.

Definition default_timeout : Z := 10.

Section Utils.
Context {Driver Element : Type} `{WebDriver Driver Element}.

(** [return element] inside a [try]: the value on success, the
    exception otherwise. *)
Definition returning {A B} (f : A -> B) (r : outcome A) : outcome B :=
  match r with
  | Returns a => Returns (f a)
  | Raises e => Raises e
  end.

(** [wait_for_element] *)
Definition wait_for_element (driver : Driver) (by_ : By) (value : string)
           (timeout : Z) : outcome (option Element) :=
  try_except
    (returning Some
       (WebDriverWait_until driver timeout
          (presence_of_element_located (by_, value))))
    TimeoutException
    (Returns None).

(** [wait_for_clickable] *)
Definition wait_for_clickable (driver : Driver) (by_ : By) (value : string)
           (timeout : Z) : outcome (option Element) :=
  try_except
    (returning Some
       (WebDriverWait_until driver timeout
          (element_to_be_clickable (by_, value))))
    TimeoutException
    (Returns None).

(** [safe_find_element] *)
Definition safe_find_element (driver : Driver) (by_ : By) (value : string)
  : outcome (option Element) :=
  try_except
    (returning Some (find_element driver by_ value))
    NoSuchElementException
    (Returns None).

(** [safe_find_elements] *)
Definition safe_find_elements (driver : Driver) (by_ : By) (value : string)
  : outcome (list Element) :=
  try_except
    (find_elements driver by_ value)
    NoSuchElementException
    (Returns []).

End Utils.

(** *** A small driver to run the utilities on

    A session is dead or shows a document that changes from one poll to
    the next ([frames]; the last frame stays).  Elements are found by
    id, name, tag or class; the other strategies find nothing here. *)
Record node := mkNode {
  node_id : string;
  node_name : string;
  node_tag : string;
  node_class : string;
  is_displayed : bool;
  is_enabled : bool
}.

Definition page : Type := list node.

Record session := mkSession {
  alive : bool;
  frames : list page
}.

Definition selects (l : locator) (n : node) : bool :=
  match fst l with
  | ID => String.eqb (node_id n) (snd l)
  | NAME => String.eqb (node_name n) (snd l)
  | TAG_NAME => String.eqb (node_tag n) (snd l)
  | CLASS_NAME => String.eqb (node_class n) (snd l)
  | _ => false
  end.

Definition current (s : session) : page := hd [] (frames s).

Definition session_gone : exn :=
  mkExn InvalidSessionIdException "invalid session id".

Definition no_such_element : exn :=
  mkExn NoSuchElementException "no such element".

Definition session_find_element (s : session) (by_ : By) (value : string)
  : outcome node :=
  if alive s then
    match filter (selects (by_, value)) (current s) with
    | n :: _ => Returns n
    | [] => Raises no_such_element
    end
  else Raises session_gone.

Definition session_find_elements (s : session) (by_ : By) (value : string)
  : outcome (list node) :=
  if alive s then Returns (filter (selects (by_, value)) (current s))
  else Raises session_gone.

(** A condition applied to one frame: the element, or nothing yet. *)
Definition holds_on (c : expected_condition) (p : page) : option node :=
  match c with
  | presence_of_element_located l =>
      match filter (selects l) p with n :: _ => Some n | [] => None end
  | element_to_be_clickable l =>
      match filter (selects l) p with
      | n :: _ => if is_displayed n && is_enabled n then Some n else None
      | [] => None
      end
  end.

Definition advance (fs : list page) : list page :=
  match fs with
  | _ :: (_ :: _) as rest => rest
  | _ => fs
  end.

(** The polling loop of [until]: at most [polls] evaluations. *)
Fixpoint poll (polls : nat) (fs : list page) (c : expected_condition)
  : outcome node :=
  match polls with
  | O => Raises (mkExn TimeoutException "")
  | S k =>
      match holds_on c (hd [] fs) with
      | Some n => Returns n
      | None => poll k (advance fs) c
      end
  end.

(** Two polls a second, and one at the start. *)
Definition session_until (s : session) (timeout : Z) (c : expected_condition)
  : outcome node :=
  if alive s then poll (S (Z.to_nat (2 * timeout))) (frames s) c
  else Raises session_gone.

#[global] Instance session_driver : WebDriver session node := {
  find_element := session_find_element;
  find_elements := session_find_elements;
  WebDriverWait_until := session_until
}.

(** *** A driver that answers as told

    Each operation has the outcome written in the record, whatever the
    locator: any behaviour a driver can show to the utilities. *)
Record scripted := mkScripted {
  find_element_gives : outcome node;
  find_elements_gives : outcome (list node);
  until_gives : expected_condition -> outcome node
}.

#[global] Instance scripted_driver : WebDriver scripted node := {
  find_element := fun d _ _ => find_element_gives d;
  find_elements := fun d _ _ => find_elements_gives d;
  WebDriverWait_until := fun d _ c => until_gives d c
}.

End SeleniumUtils.

(* ===================================================================== *)
(** ** scrapers/{booking,expedia,agoda,trip}/scraper.py                   *)
(* ===================================================================== *)

Module Scrapers.

(** The four subclasses of [BaseScraper]. *)
Inductive scraper :=
| BookingScraper
| ExpediaScraper
| AgodaScraper
| TripScraper.

(** What a scrape could do to the outside: open a browser session, load
    a page, query the document. *)
Inductive interaction :=
| SessionOpened
| PageRequested (url : string)
| DocumentQueried (by_value : string).

(** A scrape runs against the log of interactions so far. *)
Definition Scrape (A : Type) : Type :=
  list interaction -> outcome A * list interaction.

Definition raise {A} (c : exn_class) (msg : string) : Scrape A :=
  fun log => (Raises (mkExn c msg), log).

Definition rate_data : Type := DataFormatter.record (option pyfloat) unit.

Definition default_adults : Z := 2.

(** [BookingScraper.scrape_rates] *)
Definition BookingScraper_scrape_rates
    (hotel_name check_in check_out : string) (adults : Z) : Scrape rate_data :=
  raise NotImplementedError "Booking.com scraper not yet implemented".

(** [ExpediaScraper.scrape_rates] *)
Definition ExpediaScraper_scrape_rates
    (hotel_name check_in check_out : string) (adults : Z) : Scrape rate_data :=
  raise NotImplementedError "Expedia scraper not yet implemented".

(** [AgodaScraper.scrape_rates] *)
Definition AgodaScraper_scrape_rates
    (hotel_name check_in check_out : string) (adults : Z) : Scrape rate_data :=
  raise NotImplementedError "Agoda scraper not yet implemented".

(** [TripScraper.scrape_rates] *)
Definition TripScraper_scrape_rates
    (hotel_name check_in check_out : string) (adults : Z) : Scrape rate_data :=
  raise NotImplementedError "Trip.com scraper not yet implemented".

(** Method dispatch on the class of [self]. *)
Definition scrape_rates (self : scraper) :
    string -> string -> string -> Z -> Scrape rate_data :=
  match self with
  | BookingScraper => BookingScraper_scrape_rates
  | ExpediaScraper => ExpediaScraper_scrape_rates
  | AgodaScraper => AgodaScraper_scrape_rates
  | TripScraper => TripScraper_scrape_rates
  end.

End Scrapers.

(* ===================================================================== *)
(** ** scrapers/common/otas.py                                            *)
(* ===================================================================== *)

Module Otas.

(** A [pathlib] path: whether it starts at the root, and its components
    below the anchor. *)
Record Path := mkPath {
  absolute : bool;
  parts : list string
}.

(** [p.parent]: the last component is dropped; the anchor is its own
    parent. *)
Definition parent (p : Path) : Path :=
  mkPath (absolute p) (removelast (parts p)).

(** [p / name] for a relative one-component [name]. *)
Definition joinpath (p : Path) (name : string) : Path :=
  mkPath (absolute p) (parts p ++ [name]).

(** The path the module opens, from its own [__file__]. *)
Definition otas_json_path (file : Path) : Path :=
  let _current_dir := parent file in
  let _project_root := parent (parent _current_dir) in
  joinpath (joinpath _project_root "shared") "otas.json".

End Otas.

(* ===================================================================== *)
(** ** Notions of the specification                                       *)
(* ===================================================================== *)

(** The error kinds the specification names and the source has no class
    for. *)
Definition UnknownOta : exn_class := UserError "UnknownOta".
Definition InvalidQuery : exn_class := UserError "InvalidQuery".

(** A call fails with an exception of class [c]. *)
Definition fails_with {A} (r : outcome A) (c : exn_class) : Prop :=
  exists e, r = Raises e /\ exn_cls e = c.

(** The specification's condition on a query, negated: the hotel name is
    empty, or check-in is not strictly before check-out (ISO dates of
    equal length compare as their strings do), or there is no adult.  No
    function of the source computes it. *)
Definition invalid_query (hotel_name check_in check_out : string)
           (adults : Z) : Prop :=
  String.ltb check_in check_out = false \/ hotel_name = "" \/ adults < 1.

(** The float a decimal literal of Python source denotes, e.g. [1234.56]
    is [float_literal 123456 (-2)]. *)
Definition float_literal (digits exp10 : Z) : pyfloat :=
  b64_of_decimal false digits exp10.

(** A float that stands for exactly the rational [q]. *)
Definition float_is (f : pyfloat) (q : Q) : Prop :=
  match float_to_Q f with
  | Some v => (v == q)%Q
  | None => False
  end.

(** A string with every character satisfying [p] deleted. *)
Fixpoint without (p : ascii -> bool) (s : string) : string :=
  match s with
  | EmptyString => EmptyString
  | String c s' => if p c then without p s' else String c (without p s')
  end.

Definition is_price_symbol (c : ascii) : bool :=
  Ascii.eqb c "$" || Ascii.eqb c ",".

(** A sample whitelist, as [shared/otas.json] may hold it. *)
Definition sample_whitelist : list string :=
  ["booking"; "expedia"; "agoda"; "trip"].

Definition sample_now : datetime := mkDatetime 2025 6 1 9 5 0 1234.

(** A live session showing an empty document, and a dead one. *)
Definition blank_session : SeleniumUtils.session :=
  SeleniumUtils.mkSession true [[]].

Definition dead_session : SeleniumUtils.session :=
  SeleniumUtils.mkSession false [].

(** A session whose document gets its price element at the third poll;
    the element is shown from the start but enabled one poll later. *)
Definition loading_session : SeleniumUtils.session :=
  SeleniumUtils.mkSession true
    [[]; [];
     [SeleniumUtils.mkNode "price" "" "span" "rate" true false];
     [SeleniumUtils.mkNode "price" "" "span" "rate" true true]].

(** A page that is alive and restless: its selector is refused, the
    element looked at has gone stale, and listing elements runs into a
    command time-out. *)
Definition restless_page : SeleniumUtils.scripted :=
  SeleniumUtils.mkScripted
    (Raises (mkExn InvalidSelectorException "invalid selector"))
    (Raises (mkExn TimeoutException "timeout"))
    (fun c =>
       match c with
       | SeleniumUtils.presence_of_element_located _ =>
           Raises (mkExn InvalidSelectorException "invalid selector")
       | SeleniumUtils.element_to_be_clickable _ =>
           Raises (mkExn StaleElementReferenceException
                     "stale element reference")
       end).

(** Selenium's classes for a session that is gone: the session has
    ended or its window is closed.  (The specification speaks of
    unrecoverable session errors; neither the source nor Selenium has a
    class of that name.) *)
Definition unrecoverable_session_error (c : exn_class) : bool :=
  issubclass c InvalidSessionIdException
  || issubclass c NoSuchWindowException.

(** A sample run of the limiter: the clock stands at 1000 s, the
    environment imposes the listed delays, and three functions taking
    0.25 s, 2 s and no time are called through a limiter of one
    second. *)
Definition sample_world : RateLimit.world :=
  RateLimit.mkWorld 1000 [1#8; 0; 1#4; 0; 0; 1#2; 0; 0; 0; 1#4]%Q [].

Definition one_second : pyfloat := b64_of_decimal false 10 (-1).

Definition sample_calls : list (RateLimit.IO unit) :=
  [RateLimit.busy (b64_of_decimal false 25 (-2));
   RateLimit.busy (b64_of_decimal false 2 0);
   RateLimit.busy (Fzero false)].



(** Every character of [s] satisfies [p]. *)
Fixpoint forall_chars (p : ascii -> bool) (s : string) : bool :=
  match s with
  | EmptyString => true
  | String c s' => p c && forall_chars p s'
  end.

(** The number a string of decimal digits writes, continuing [acc]. *)
Fixpoint number_of_digits (s : string) (acc : Z) : Z :=
  match s with
  | EmptyString => acc
  | String c s' => number_of_digits s' (10 * acc + digit_value c)
  end.

(** A digit or the decimal point. *)
Definition is_decimal_char (c : ascii) : bool :=
  isdigit c || Ascii.eqb c ".".

(** A wrapped function that fails at once. *)
Definition failing : RateLimit.IO unit :=
  fun w => (Raises (mkExn RuntimeError "boom"), w).

(* ===================================================================== *)
(** ** Properties of the runtime fragment                                 *)
(* ===================================================================== *)

Section RuntimeFacts.

Lemma issubclass_refl c : issubclass c c = true.
Proof.
  unfold issubclass; simpl. unfold class_eqb.
  destruct (exn_class_eq_dec c c); [reflexivity | congruence].
Qed.

(** Catching a class lets through exactly what is not of that class. *)
Lemma try_except_raises {A} (body handler : outcome A) cls e :
  (forall e', handler <> Raises e') ->
  try_except body cls handler = Raises e ->
  body = Raises e /\ issubclass (exn_cls e) cls = false.
Proof.
  intros Hh. unfold try_except. destruct body as [a | e0]; [discriminate |].
  destruct (issubclass (exn_cls e0) cls) eqn:E.
  - intros Hr. exfalso. exact (Hh e Hr).
  - intros Hr. inversion Hr; subst. split; [reflexivity | assumption].
Qed.

(** [float] raises nothing but its [ValueError]. *)
Lemma py_float_raises s e : py_float s = Raises e -> e = could_not_convert.
Proof.
  unfold py_float.
  destruct (negb (underscores_ok None (blank_high_spaces s))).
  - intros Hr; inversion Hr; reflexivity.
  - destruct (take_sign _) as [neg body].
    destruct (parse_number body) as [[m x] |]; [discriminate |].
    destruct (_ || _); [discriminate |].
    destruct (String.eqb _ _); [discriminate |].
    intros Hr; inversion Hr; reflexivity.
Qed.

(** Replacing a one-character string by nothing deletes that character. *)
Lemma replace_char_without c s :
  replace (String c "") "" s = without (Ascii.eqb c) s.
Proof.
  unfold replace.
  induction s as [| a s IH]; [reflexivity |].
  cbn [replace_from without prefix].
  destruct (ascii_dec c a) as [-> | Hne].
  - rewrite Ascii.eqb_refl.
    assert (Hp : prefix "" s = true) by (destruct s; reflexivity).
    rewrite Hp. cbn. exact IH.
  - destruct (Ascii.eqb c a) eqn:E.
    + apply Ascii.eqb_eq in E. contradiction.
    + now rewrite IH.
Qed.

Lemma without_idem p s : without p (without p s) = without p s.
Proof.
  induction s as [| a s IH]; [reflexivity |]. cbn.
  destruct (p a) eqn:E; [exact IH |]. cbn. now rewrite E, IH.
Qed.

Lemma without_symbols_split s :
  without (Ascii.eqb ",") (without (Ascii.eqb "$") s) = without is_price_symbol s.
Proof.
  induction s as [| a s IH]; [reflexivity |].
  cbn [without]. unfold is_price_symbol at 1.
  rewrite (Ascii.eqb_sym a "$"), (Ascii.eqb_sym a ",").
  destruct (Ascii.eqb "$" a) eqn:E1; cbn [orb without]; [exact IH |].
  destruct (Ascii.eqb "," a) eqn:E2; [exact IH | now rewrite IH].
Qed.

End RuntimeFacts.

(** Rounding to an integer is off by at most one half. *)
Lemma round_half_even_near n d :
  0 < d -> Z.abs (2 * (round_half_even n d * d - n)) <= d.
Proof.
  intros Hd. unfold round_half_even.
  pose proof (Z.div_mod n d ltac:(lia)) as Hn.
  pose proof (Z.mod_pos_bound n d Hd) as Hr.
  set (q := n / d) in *. set (r := n mod d) in *.
  assert (Hq : q * d = n - r) by lia.
  destruct (Z.compare_spec (2 * r) d) as [He | Hl | Hg].
  - destruct (Z.even q).
    + rewrite Hq. lia.
    + rewrite Z.mul_add_distr_r, Hq. lia.
  - rewrite Hq. lia.
  - rewrite Z.mul_add_distr_r, Hq. lia.
Qed.

(** The floats the claims name stand for the numbers meant. *)
Example float_literal_exact :
  float_is (float_literal 420 (-1)) 42
  /\ float_is (float_literal 1000 (-1)) 100
  /\ float_is (float_literal 500 (-1)) 50
  /\ float_is (float_literal 12340 (-1)) 1234
  /\ float_is (float_literal 50 (-1)) 5
  /\ float_is (float_literal 10000 (-1)) 1000.
Proof. repeat split. Qed.

(** The rounding on sample values: exact where the decimal is a binary64
    number, and within half a unit in the last place of 1234.56. *)
Example float_literal_samples :
  float_literal 420 (-1) = Ffinite false 5910974510923776 (-47)
  /\ float_literal 1000 (-1) = Ffinite false 7036874417766400 (-46)
  /\ float_literal 500 (-1) = Ffinite false 7036874417766400 (-47)
  /\ float_literal 123456 (-2) = Ffinite false 5429652300748554 (-42)
  /\ (5910974510923776 = 42 * 2 ^ 47)%Z
  /\ (7036874417766400 = 100 * 2 ^ 46)%Z
  /\ (Z.abs (5429652300748554 * 100 - 123456 * 2 ^ 42) * 2 <= 100)%Z.
Proof. vm_compute. repeat split; discriminate. Qed.

Example float_samples :
  py_float "1234.56" = Returns (Ffinite false 5429652300748554 (-42))
  /\ py_float " -1_0.5e+1 " = Returns (b64_of_decimal true 105 0)
  /\ py_float "1e400" = Returns (Finf false)
  /\ py_float "Infinity" = Returns (Finf false)
  /\ py_float "1e" = Raises could_not_convert
  /\ py_float "." = Raises could_not_convert
  /\ py_float "1__0" = Raises could_not_convert
  /\ py_float "1e_5" = Raises could_not_convert
  /\ py_float "1e5_0" = Returns (b64_of_decimal false 1 50)
  /\ py_float (String (ascii_of_nat 28) "1") = Raises could_not_convert
  /\ py_float (String (ascii_of_nat 160) "1 ") = Returns (b64_of_decimal false 1 0)
  /\ py_float "+-1" = Raises could_not_convert
  /\ py_float "infinit" = Raises could_not_convert
  /\ py_float "-nan" = Returns (Fnan true)
  /\ py_float "5e-324" = Returns (Ffinite false 1 (-1074))
  /\ py_float "2e-324" = Returns (Fzero false)
  /\ py_float "0.1" = Returns (Ffinite false 7205759403792794 (-56))
  /\ py_float "9007199254740993" = Returns (Ffinite false 4503599627370496 1)
  /\ py_float "1.7976931348623157e308" = Returns (Ffinite false 9007199254740991 971)
  /\ isoformat (mkDatetime 2025 6 1 9 5 0 0) = "2025-06-01T09:05:00"
  /\ isoformat (mkDatetime 2025 6 1 9 5 0 1234) = "2025-06-01T09:05:00.001234"
  /\ Py.replace "," "" "1,2,,3" = "123"
  /\ Py.replace "ab" "x" "ababa" = "xxa"
  /\ Py.replace "" "-" "abc" = "-a-b-c-"
  /\ strip (String (ascii_of_nat 28) " 4 " ++ String (ascii_of_nat 133) "") = "4"
  /\ strip "  42 " = "42".
Proof. vm_compute. repeat split. Qed.

(* ===================================================================== *)
(** ** data_formatter.py: normalisation                                   *)
(* ===================================================================== *)

Section DataFormatterFacts.
Import DataFormatter.

(** The string handed to [float]. *)
Lemma cleaned_without s :
  strip (replace "," "" (replace "$" "" s)) = strip (without is_price_symbol s).
Proof.
  now rewrite !replace_char_without, without_symbols_split.
Qed.

Lemma normalize_price_returns s : exists r, normalize_price s = Returns r.
Proof.
  unfold normalize_price.
  destruct (negb (truthy s)); [now exists None |].
  destruct (py_float _) as [f | e] eqn:E; cbn [try_except].
  - now exists (Some f).
  - apply py_float_raises in E; subst e. cbn. now exists None.
Qed.

Lemma normalize_price_all (ps : list string) :
  exists amounts, map normalize_price ps = map Returns amounts.
Proof.
  induction ps as [| p ps [amounts IH]].
  - now exists [].
  - destruct (normalize_price_returns p) as [a Ha].
    exists (a :: amounts). cbn. now rewrite Ha, IH.
Qed.

End DataFormatterFacts.

Section Whitelist.
Import DataFormatter.

(** The content of [shared/otas.json], which [otas.py] loads. *)
Variable WHITELIST_OTAS : list string.

(** C1 (as amended): [format_scraped_data] does not consult the OTA
    whitelist.  For an [ota_name] outside the whitelist it still returns
    a record, and that record carries the name as given. *)
Theorem format_scraped_data_unlisted_ota
    {Rate Raw : Type} (now : datetime)
    (ota hotel check_in check_out : string)
    (rs : list Rate) (raw : option Raw) :
  ~ In ota WHITELIST_OTAS ->
  exists r, format_scraped_data now ota hotel check_in check_out rs raw = Returns r
            /\ ota_name r = ota.
Proof.
  intros _. eexists. split; reflexivity.
Qed.

End Whitelist.

Lemma format_scraped_data_unlisted_ota_witness :
  ~ In "Booking" sample_whitelist
  /\ exists r, DataFormatter.format_scraped_data sample_now "Booking"
                 "Grand Hotel" "2025-06-01" "2025-06-03"
                 [Some (float_literal 1000 (-1))] (@None unit) = Returns r
               /\ DataFormatter.ota_name r = "Booking".
Proof.
  assert (Hout : ~ In "Booking" sample_whitelist).
  { cbn. intros [H | [H | [H | [H | []]]]]; discriminate H. }
  split; [exact Hout |].
  exact (format_scraped_data_unlisted_ota sample_whitelist sample_now "Booking"
           "Grand Hotel" "2025-06-01" "2025-06-03"
           [Some (float_literal 1000 (-1))] None Hout).
Defined.

(** C1 (as stated) fails: neither the empty name nor a case variant of a
    listed name makes [format_scraped_data] fail with [UnknownOta]. *)
Lemma format_scraped_data_no_UnknownOta :
  (~ In "" sample_whitelist /\ ~ In "Booking" sample_whitelist)
  /\ ~ fails_with (DataFormatter.format_scraped_data sample_now ""
                     "Grand Hotel" "2025-06-01" "2025-06-03"
                     (@nil (option pyfloat)) (@None unit)) UnknownOta
  /\ ~ fails_with (DataFormatter.format_scraped_data sample_now "Booking"
                     "Grand Hotel" "2025-06-01" "2025-06-03"
                     (@nil (option pyfloat)) (@None unit)) UnknownOta.
Proof.
  repeat split.
  - cbn. intros [H | [H | [H | [H | []]]]]; discriminate H.
  - cbn. intros [H | [H | [H | [H | []]]]]; discriminate H.
  - intros [e [H _]]. discriminate H.
  - intros [e [H _]]. discriminate H.
Qed.

Section Normalisation.
Import DataFormatter.

(** C4: [normalize_price] on the well-formed samples gives 1234.56,
    1234.56 and 42.0; on the empty string, on N/A and on two dashes it
    gives [None]; and on every string it returns (a float or [None]): it
    never raises. *)
Theorem normalize_price_samples_and_totality :
  normalize_price "$1,234.56" = Returns (Some (float_literal 123456 (-2)))
  /\ normalize_price "1234.56" = Returns (Some (float_literal 123456 (-2)))
  /\ normalize_price "  42 " = Returns (Some (float_literal 420 (-1)))
  /\ normalize_price "" = Returns None
  /\ normalize_price "N/A" = Returns None
  /\ normalize_price "--" = Returns None
  /\ forall s, exists r, normalize_price s = Returns r.
Proof.
  do 6 (split; [vm_compute; reflexivity |]).
  exact normalize_price_returns.
Qed.

(** C5: the prices "$100", "bad", "$50" parsed by [normalize_price] and
    assembled by [format_scraped_data] give [rates] of length three, in
    the order of the input, with amounts 100.0, [None], 50.0.  For any
    list of prices every entry yields an amount, and the record keeps
    them all, in order.  (An entry [{price: p}] is represented by [p], a
    rate [{amount: a}] by [a].) *)
Theorem order_preservation
    {Raw : Type} (now : datetime) (ota hotel check_in check_out : string)
    (raw : option Raw) :
  let amounts := [Some (float_literal 1000 (-1)); None;
                  Some (float_literal 500 (-1))] in
  map normalize_price ["$100"; "bad"; "$50"] = map Returns amounts
  /\ (exists r, format_scraped_data now ota hotel check_in check_out amounts raw
                = Returns r
                /\ rates r = amounts /\ List.length (rates r) = 3%nat)
  /\ forall prices : list string,
       exists amts,
         map normalize_price prices = map Returns amts
         /\ List.length amts = List.length prices
         /\ exists r, format_scraped_data now ota hotel check_in check_out amts raw
                      = Returns r
                      /\ rates r = amts.
Proof.
  cbv zeta. split; [vm_compute; reflexivity |]. split.
  - eexists. repeat split.
  - intros prices. destruct (normalize_price_all prices) as [amts Ha].
    exists amts. split; [exact Ha |]. split.
    + apply (f_equal (@List.length _)) in Ha. now rewrite !length_map in Ha.
    + eexists. split; reflexivity.
Qed.

(** C7: two calls of [format_scraped_data] with the same arguments, at
    whatever times, return records that agree on every field other than
    [scraped_at]. *)
Theorem normalization_deterministic
    {Rate Raw : Type} (now1 now2 : datetime)
    (ota hotel check_in check_out : string)
    (rs : list Rate) (raw : option Raw) :
  exists r1 r2,
    format_scraped_data now1 ota hotel check_in check_out rs raw = Returns r1
    /\ format_scraped_data now2 ota hotel check_in check_out rs raw = Returns r2
    /\ ota_name r1 = ota_name r2
    /\ hotel_name r1 = hotel_name r2
    /\ check_in_date r1 = check_in_date r2
    /\ check_out_date r1 = check_out_date r2
    /\ rates r1 = rates r2
    /\ raw_data r1 = raw_data r2.
Proof.
  do 2 eexists. repeat split.
Qed.

(** C8: the record's [hotel_name], [check_in_date] and [check_out_date]
    are the [hotel_name], [check_in] and [check_out] arguments, character
    for character, whatever the rates and the raw data are. *)
Theorem query_fields_verbatim
    {Rate Raw : Type} (now : datetime)
    (ota hotel check_in check_out : string)
    (rs : list Rate) (raw : option Raw) :
  exists r,
    format_scraped_data now ota hotel check_in check_out rs raw = Returns r
    /\ hotel_name r = hotel
    /\ check_in_date r = check_in
    /\ check_out_date r = check_out.
Proof.
  eexists. repeat split.
Qed.

(** C9: [normalize_price] deletes every dollar sign and every comma,
    wherever they stand, before parsing: its result on a string is its
    result on the string without them.  So "12,34", "$$5" and "1e3" are
    given the numbers 1234.0, 5.0 and 1000.0 rather than [None]. *)
Theorem normalize_price_lenient :
  (forall s, normalize_price s = normalize_price (without is_price_symbol s))
  /\ normalize_price "12,34" = Returns (Some (float_literal 12340 (-1)))
  /\ normalize_price "$$5" = Returns (Some (float_literal 50 (-1)))
  /\ normalize_price "1e3" = Returns (Some (float_literal 10000 (-1))).
Proof.
  split; [| repeat split; vm_compute; reflexivity].
  intros s. unfold normalize_price.
  rewrite !cleaned_without, without_idem.
  destruct s as [| c s]; [reflexivity |].
  destruct (without is_price_symbol (String c s)) eqn:E; [| reflexivity].
  cbn [truthy negb]. reflexivity.
Qed.

End Normalisation.

(* ===================================================================== *)
(** ** rate_limiter.py: pacing                                            *)
(* ===================================================================== *)

(** The world a run ends in, read off the goal. *)
Ltac take_final_world :=
  match goal with
  | |- exists w', (_, (_, ?W)) = _ /\ _ => exists W
  end.

Section RateLimiterFacts.
Import Float64 RateLimit.
Local Open Scope Q_scope.



(** Subtracting the initial [0] leaves a float as it is. *)
Lemma fsub_zero x : fsub x (Fzero false) = x.
Proof. destruct x as [s | s m e | s | s]; cbn; try reflexivity.
  now rewrite andb_true_r.
Qed.

Lemma fcompare_values x y a b :
  float_to_Q x = Some a -> float_to_Q y = Some b ->
  fcompare x y = Some (a ?= b).
Proof.
  destruct x, y; cbn [float_to_Q]; try discriminate; intros Ha Hb;
    unfold fcompare; cbn [float_to_Q]; rewrite ?Ha, ?Hb;
    inversion Ha; inversion Hb; reflexivity.
Qed.

Lemma fcompare_antisym x y c :
  fcompare x y = Some c -> fcompare y x = Some (CompOpp c).
Proof.
  destruct (float_to_Q x) as [a |] eqn:Ea, (float_to_Q y) as [b |] eqn:Eb.
  - rewrite (fcompare_values _ _ _ _ Ea Eb), (fcompare_values _ _ _ _ Eb Ea).
    intros H. inversion H. now rewrite Qcompare_antisym.
  - destruct x as [sx | sx mx ex | sx | sx], y as [sy | sy my ey | sy | sy];
      try discriminate; destruct sy; cbn; intros H; inversion H; reflexivity.
  - destruct x as [sx | sx mx ex | sx | sx], y as [sy | sy my ey | sy | sy];
      try discriminate; destruct sx; cbn; intros H; inversion H; reflexivity.
  - destruct x as [sx | sx mx ex | sx | sx], y as [sy | sy my ey | sy | sy];
      try discriminate; destruct sx, sy; cbn; intros H; inversion H;
      reflexivity.
Qed.

(** [d <= r] rules out [r < d]. *)
Lemma fle_not_flt d r : fle d r = true -> flt r d = false.
Proof.
  unfold fle, flt. destruct (fcompare d r) as [c |] eqn:E; [| discriminate].
  rewrite (fcompare_antisym _ _ _ E). now destruct c.
Qed.

(** The three ways a [wait] can go: no sleep; a sleep that is accepted;
    a sleep that [time.sleep] refuses, after which nothing is stamped. *)
Lemma wait_cases self w :
  let t0 := clock w + next_delay w in
  let w1 := mkWorld t0 (tl (schedule w)) (sleeps w) in
  let elapsed := fsub (b64_of_Q t0) (last_request_time self) in
  let s := fsub (min_delay self) elapsed in
  (flt elapsed (min_delay self) = false
   /\ wait (self, w)
      = (Returns tt,
         (mkRateLimiter (min_delay self) (b64_of_Q (t0 + next_delay w1)),
          mkWorld (t0 + next_delay w1) (tl (schedule w1)) (sleeps w))))
  \/ (flt elapsed (min_delay self) = true
      /\ sleep_refusal s = None
      /\ let w2 := mkWorld (t0 + duration s + next_delay w1)
                           (tl (schedule w1)) (sleeps w ++ [s]) in
         wait (self, w)
         = (Returns tt,
            (mkRateLimiter (min_delay self)
                           (b64_of_Q (clock w2 + next_delay w2)),
             mkWorld (clock w2 + next_delay w2) (tl (schedule w2))
                     (sleeps w ++ [s]))))
  \/ (flt elapsed (min_delay self) = true
      /\ exists ex, sleep_refusal s = Some ex
         /\ wait (self, w) = (Raises ex, (self, w1))).
Proof.
  cbv zeta.
  unfold wait, bind, lift, self_, set_last_request_time, time_time, ret.
  cbn [fst snd clock schedule sleeps min_delay last_request_time].
  destruct (flt _ _) eqn:E.
  - unfold time_sleep.
    destruct (sleep_refusal _) as [ex |] eqn:Er.
    + right. right. split; [reflexivity |]. exists ex.
      split; [reflexivity |]. cbn [fst snd]. now destruct self.
    + right. left. split; [reflexivity |]. split; [reflexivity |].
      reflexivity.
  - left. split; reflexivity.
Qed.



Lemma flt_values x y a b :
  float_to_Q x = Some a -> float_to_Q y = Some b ->
  (flt x y = true -> a < b) /\ (flt x y = false -> b <= a).
Proof.
  intros Ha Hb. unfold flt. rewrite (fcompare_values _ _ _ _ Ha Hb).
  destruct (a ?= b) eqn:E; split; intros H; try discriminate.
  - apply Qeq_alt in E. rewrite E. apply Qle_refl.
  - now apply Qlt_alt.
  - apply Qgt_alt in E. now apply Qlt_le_weak.
Qed.





End RateLimiterFacts.

Section Pacing.
Import Float64 RateLimit.
Local Open Scope Q_scope.





(** The three calls of the sample run are entered at 1000.125 s,
    1001.625 s and 1003.625 s. *)
Example sample_run_start_times :
  map Qred (start_times sample_calls (init one_second, sample_world))
  = [8001 # 8; 8013 # 8; 8029 # 8].
Proof. vm_compute. reflexivity. Qed.


(** C10: a new limiter has [last_request_time = 0].  When [min_delay]
    does not exceed the time the clock shows at the first [wait], that
    [wait] returns without any [time.sleep]: the only time that goes by
    is what the two readings of the clock take. *)
Theorem first_wait_does_not_sleep (d : pyfloat) (w : world) :
  fle d (b64_of_Q (clock w + next_delay w)) = true ->
  last_request_time (init d) = Fzero false
  /\ exists w',
       wait (init d, w)
       = (Returns tt, (mkRateLimiter d (b64_of_Q (clock w')), w'))
       /\ sleeps w' = sleeps w
       /\ schedule w' = tl (tl (schedule w))
       /\ clock w' = clock w + next_delay w + hd 0 (tl (schedule w)).
Proof.
  intros Hd. split; [reflexivity |].
  destruct (wait_cases (init d) w) as [[_ Hw] | [[Hyes _] | [Hyes _]]];
    cbv zeta in *; cbn [init min_delay last_request_time] in *.
  - rewrite Hw. take_final_world. repeat split.
  - rewrite fsub_zero, (fle_not_flt _ _ Hd) in Hyes. discriminate Hyes.
  - rewrite fsub_zero, (fle_not_flt _ _ Hd) in Hyes. discriminate Hyes.
Qed.

Lemma first_wait_does_not_sleep_witness :
  last_request_time (init one_second) = Fzero false
  /\ exists w',
       wait (init one_second, sample_world)
       = (Returns tt, (mkRateLimiter one_second (b64_of_Q (clock w')), w'))
       /\ sleeps w' = sleeps sample_world
       /\ schedule w' = tl (tl (schedule sample_world))
       /\ clock w' = clock sample_world + next_delay sample_world
                     + hd 0 (tl (schedule sample_world)).
Proof.
  apply (first_wait_does_not_sleep one_second sample_world).
  vm_compute. reflexivity.
Defined.

(** For contrast: with a delay beyond the clock's reading the first
    [wait] does sleep. *)
Example first_wait_sleeps_when_delay_exceeds_clock :
  sleeps (snd (snd (wait (init (b64_of_decimal false 2000 0),
                          sample_world)))) <> [].
Proof. vm_compute. discriminate. Qed.

End Pacing.

(* ===================================================================== *)
(** ** selenium_utils.py: bounded waits                                   *)
(* ===================================================================== *)

Section BoundedWaits.
Import SeleniumUtils.
Context {Driver Element : Type} `{WebDriver Driver Element}.

Lemma returning_raises {A B} (f : A -> B) (r : outcome A) e :
  returning f r = Raises e -> r = Raises e.
Proof. destruct r; cbn; congruence. Qed.

Lemma fails_with_caught {A B} (f : A -> B) (r : outcome A) cls h :
  fails_with r cls -> try_except (returning f r) cls h = h.
Proof.
  intros [e [-> <-]]. cbn [returning try_except]. now rewrite issubclass_refl.
Qed.

(** What [try: return x / except cls: return None] makes of a call. *)
Lemma optional_outcomes {A} (r : outcome A) (cls : exn_class) :
  (forall a, try_except (returning Some r) cls (Returns None)
             = Returns (Some a) <-> r = Returns a)
  /\ (try_except (returning Some r) cls (Returns None) = Returns None
      <-> exists e, r = Raises e /\ issubclass (exn_cls e) cls = true)
  /\ (forall e, try_except (returning Some r) cls (Returns None) = Raises e
      <-> r = Raises e /\ issubclass (exn_cls e) cls = false).
Proof.
  destruct r as [a0 | e0]; cbn [returning try_except].
  - split; [| split].
    + intros a. split; intros H1; inversion H1; reflexivity.
    + split; [discriminate | intros [e [H1 _]]; discriminate H1].
    + intros e. split; [discriminate | intros [H1 _]; discriminate H1].
  - destruct (issubclass (exn_cls e0) cls) eqn:E; (split; [| split]).
    + intros a. split; discriminate.
    + split; [intros _; now exists e0 | reflexivity].
    + intros e. split; [discriminate |].
      intros [H1 H2]. inversion H1; subst. congruence.
    + intros a. split; discriminate.
    + split; [discriminate |].
      intros [e [H1 H2]]. inversion H1; subst. congruence.
    + intros e. split.
      * intros H1. inversion H1; subst. now split.
      * intros [H1 _]. inversion H1; reflexivity.
Qed.

(** The three things an optional lookup does with what the driver did. *)
Lemma optional_lookup {A} (r : outcome A) (cls : exn_class) :
  (forall a, r = Returns a ->
     try_except (returning Some r) cls (Returns None) = Returns (Some a))
  /\ (forall e, r = Raises e -> issubclass (exn_cls e) cls = true ->
        try_except (returning Some r) cls (Returns None) = Returns None)
  /\ (forall e, r = Raises e -> issubclass (exn_cls e) cls = false ->
        try_except (returning Some r) cls (Returns None) = Raises e).
Proof.
  destruct (optional_outcomes r cls) as (H1 & H2 & H3).
  split; [| split].
  - intros a Ha. now apply H1.
  - intros e He Hc. apply H2. now exists e.
  - intros e He Hc. now apply H3.
Qed.

(** C6 (as amended): each utility turns the one condition it handles
    into a result and nothing else.  When the driver produces the
    element (or the list), the utility returns it.  When the wait times
    out, [wait_for_element] and [wait_for_clickable] return [None];
    when the element is absent, [safe_find_element] returns [None] and
    [safe_find_elements] the empty list.  Any other exception the
    driver raises leaves the utility as it is, be it the error of a
    lost session or not. *)
Theorem bounded_waits_expected_conditions
    (driver : Driver) (by_ : By) (value : string) (timeout : Z) :
  let present :=
    WebDriverWait_until driver timeout
      (presence_of_element_located (by_, value)) in
  let clickable :=
    WebDriverWait_until driver timeout
      (element_to_be_clickable (by_, value)) in
  let found := find_element driver by_ value in
  let found_all := find_elements driver by_ value in
  ((forall el, present = Returns el ->
      wait_for_element driver by_ value timeout = Returns (Some el))
   /\ (forall e, present = Raises e ->
         issubclass (exn_cls e) TimeoutException = true ->
         wait_for_element driver by_ value timeout = Returns None)
   /\ (forall e, present = Raises e ->
         issubclass (exn_cls e) TimeoutException = false ->
         wait_for_element driver by_ value timeout = Raises e))
  /\ ((forall el, clickable = Returns el ->
         wait_for_clickable driver by_ value timeout = Returns (Some el))
      /\ (forall e, clickable = Raises e ->
            issubclass (exn_cls e) TimeoutException = true ->
            wait_for_clickable driver by_ value timeout = Returns None)
      /\ (forall e, clickable = Raises e ->
            issubclass (exn_cls e) TimeoutException = false ->
            wait_for_clickable driver by_ value timeout = Raises e))
  /\ ((forall el, found = Returns el ->
         safe_find_element driver by_ value = Returns (Some el))
      /\ (forall e, found = Raises e ->
            issubclass (exn_cls e) NoSuchElementException = true ->
            safe_find_element driver by_ value = Returns None)
      /\ (forall e, found = Raises e ->
            issubclass (exn_cls e) NoSuchElementException = false ->
            safe_find_element driver by_ value = Raises e))
  /\ ((forall els, found_all = Returns els ->
         safe_find_elements driver by_ value = Returns els)
      /\ (forall e, found_all = Raises e ->
            issubclass (exn_cls e) NoSuchElementException = true ->
            safe_find_elements driver by_ value = Returns [])
      /\ (forall e, found_all = Raises e ->
            issubclass (exn_cls e) NoSuchElementException = false ->
            safe_find_elements driver by_ value = Raises e)).
Proof.
  cbv zeta.
  unfold wait_for_element, wait_for_clickable, safe_find_element,
    safe_find_elements.
  split; [apply optional_lookup |].
  split; [apply optional_lookup |].
  split; [apply optional_lookup |].
  split; [| split].
  - intros els ->. reflexivity.
  - intros e -> Hc. cbn [try_except]. now rewrite Hc.
  - intros e -> Hc. cbn [try_except]. now rewrite Hc.
Qed.

End BoundedWaits.

Lemma bounded_waits_expected_conditions_witness :
  SeleniumUtils.wait_for_element blank_session SeleniumUtils.ID "price" 10
    = Returns None
  /\ SeleniumUtils.wait_for_clickable blank_session SeleniumUtils.ID "price" 10
     = Returns None
  /\ SeleniumUtils.safe_find_element blank_session SeleniumUtils.ID "price"
     = Returns None
  /\ SeleniumUtils.safe_find_elements blank_session SeleniumUtils.ID "price"
     = Returns []
  /\ SeleniumUtils.wait_for_element loading_session SeleniumUtils.ID "price" 10
     = Returns (Some (SeleniumUtils.mkNode "price" "" "span" "rate" true false))
  /\ SeleniumUtils.safe_find_element dead_session SeleniumUtils.ID "price"
     = Raises SeleniumUtils.session_gone.
Proof.
  destruct (bounded_waits_expected_conditions
              blank_session SeleniumUtils.ID "price" 10)
    as ((_ & H1 & _) & (_ & H2 & _) & (_ & H3 & _) & (H4 & _)).
  destruct (bounded_waits_expected_conditions
              loading_session SeleniumUtils.ID "price" 10)
    as ((H5 & _) & _).
  destruct (bounded_waits_expected_conditions
              dead_session SeleniumUtils.ID "price" 10)
    as (_ & _ & (_ & _ & H6) & _).
  split; [apply (H1 (mkExn TimeoutException "")); reflexivity |].
  split; [apply (H2 (mkExn TimeoutException "")); reflexivity |].
  split; [apply (H3 SeleniumUtils.no_such_element); reflexivity |].
  split; [apply H4; reflexivity |].
  split; [apply H5; reflexivity |].
  apply H6; reflexivity.
Defined.

(** C6 (as stated) fails in its last part: on a session that is alive,
    an invalid selector, a stale element and a command that times out
    all leave the utilities as exceptions, and none of them is the
    error of a lost session. *)
Lemma bounded_waits_let_other_errors_through :
  (exists e,
     SeleniumUtils.safe_find_element restless_page SeleniumUtils.XPATH "//["
     = Raises e
     /\ exn_cls e = InvalidSelectorException
     /\ unrecoverable_session_error (exn_cls e) = false)
  /\ (exists e,
        SeleniumUtils.safe_find_elements restless_page
          SeleniumUtils.XPATH "//[" = Raises e
        /\ exn_cls e = TimeoutException
        /\ unrecoverable_session_error (exn_cls e) = false)
  /\ (exists e,
        SeleniumUtils.wait_for_clickable restless_page
          SeleniumUtils.ID "price" 10 = Raises e
        /\ exn_cls e = StaleElementReferenceException
        /\ unrecoverable_session_error (exn_cls e) = false)
  /\ (exists e,
        SeleniumUtils.wait_for_element restless_page
          SeleniumUtils.XPATH "//[" 10 = Raises e
        /\ exn_cls e = InvalidSelectorException
        /\ unrecoverable_session_error (exn_cls e) = false).
Proof.
  repeat split; eexists; repeat split.
Qed.

(** The utilities on the sample sessions: an element that shows up
    within the timeout is returned, one that does not gives [None], and
    a dead session raises. *)
Example bounded_waits_samples :
  SeleniumUtils.wait_for_element loading_session SeleniumUtils.ID "price" 10
    = Returns (Some (SeleniumUtils.mkNode "price" "" "span" "rate" true false))
  /\ SeleniumUtils.wait_for_clickable loading_session SeleniumUtils.ID "price" 10
     = Returns (Some (SeleniumUtils.mkNode "price" "" "span" "rate" true true))
  /\ SeleniumUtils.wait_for_clickable loading_session SeleniumUtils.ID "price" 1
     = Returns None
  /\ SeleniumUtils.safe_find_element loading_session SeleniumUtils.ID "price"
     = Returns None
  /\ SeleniumUtils.wait_for_element dead_session SeleniumUtils.ID "price" 10
     = Raises SeleniumUtils.session_gone
  /\ SeleniumUtils.safe_find_elements dead_session SeleniumUtils.ID "price"
     = Raises SeleniumUtils.session_gone.
Proof. vm_compute. repeat split. Qed.

(* ===================================================================== *)
(** ** scraper.py: the four adapters                                      *)
(* ===================================================================== *)

Section Adapters.
Import Scrapers.

(** C2 (as amended): for every scraper variant and every query, valid
    or not (so for every query with check-in not before check-out, an
    empty hotel name or no adult), [scrape_rates] fails with
    [NotImplementedError], never with [InvalidQuery], and it does so
    without any interaction with a browser session or the network. *)
Theorem scrape_rates_not_implemented
    (self : scraper) (hotel check_in check_out : string) (adults : Z)
    (log : list interaction) :
  fails_with (fst (scrape_rates self hotel check_in check_out adults log))
             NotImplementedError
  /\ ~ fails_with (fst (scrape_rates self hotel check_in check_out adults log))
                  InvalidQuery
  /\ snd (scrape_rates self hotel check_in check_out adults log) = log.
Proof.
  destruct self;
    (split; [eexists; split; reflexivity |
             split; [intros [e [He Hc]]; inversion He; subst e;
                     discriminate Hc | reflexivity]]).
Qed.

End Adapters.

(** C2 (as stated) fails: the query with check-in after check-out, the
    one with an empty hotel name and the one without adults are invalid,
    yet no variant fails with [InvalidQuery] on them. *)
Lemma scrape_rates_no_InvalidQuery :
  invalid_query "Grand Hotel" "2025-06-05" "2025-06-01" 2
  /\ invalid_query "" "2025-06-01" "2025-06-03" 2
  /\ invalid_query "Grand Hotel" "2025-06-01" "2025-06-03" 0
  /\ forall self,
       ~ fails_with (fst (Scrapers.scrape_rates self
                            "Grand Hotel" "2025-06-05" "2025-06-01" 2 []))
                    InvalidQuery
       /\ ~ fails_with (fst (Scrapers.scrape_rates self
                               "" "2025-06-01" "2025-06-03" 2 []))
                       InvalidQuery
       /\ ~ fails_with (fst (Scrapers.scrape_rates self
                               "Grand Hotel" "2025-06-01" "2025-06-03" 0 []))
                       InvalidQuery.
Proof.
  split; [left; reflexivity |].
  split; [right; left; reflexivity |].
  split; [right; right; reflexivity |].
  intros self.
  destruct self; repeat split; intros [e [He Hc]]; inversion He; subst e;
    discriminate Hc.
Qed.

(* ===================================================================== *)
(** ** rate_limiter.py: further properties                                *)
(* ===================================================================== *)

Section PacingMore.
Import Float64 RateLimit.
Local Open Scope Q_scope.

Lemma finite_value_sign s m e :
  exists v, float_to_Q (Ffinite s m e) = Some v
            /\ (if s then v < 0 else 0 < v).
Proof.
  cbn [float_to_Q].
  destruct (0 <=? e)%Z eqn:E.
  - assert (Hp : (0 < Zpos m * 2 ^ e)%Z).
    { apply Z.leb_le in E. apply Z.mul_pos_pos; [lia |].
      now apply Z.pow_pos_nonneg. }
    set (z := (Zpos m * 2 ^ e)%Z) in *.
    destruct s; eexists; (split; [reflexivity |]);
      unfold Qlt, Qopp, inject_Z; cbn [Qnum Qden]; lia.
  - set (p := Z.to_pos (2 ^ (- e))).
    destruct s; eexists; (split; [reflexivity |]);
      unfold Qlt, Qopp; cbn [Qnum Qden]; lia.
Qed.

(** A float that is neither a NaN nor negative. *)
Lemma nonneg_cases x :
  (x = Fzero false \/ x = Fzero true \/ x = Finf false
   \/ exists m e, x = Ffinite false m e) ->
  fle (Fzero false) x = true.
Proof.
  intros [-> | [-> | [-> | [m [e ->]]]]]; try reflexivity.
  destruct (finite_value_sign false m e) as [v [Ev Hv]].
  unfold fle.
  rewrite (fcompare_values (Fzero false) (Ffinite false m e) 0 v eq_refl Ev).
  assert (Hc : (0 ?= v) = Lt) by (now apply Qlt_alt).
  now rewrite Hc.
Qed.

Lemma b64_of_ratio_nonneg n d :
  fle (Fzero false) (b64_of_ratio false n d) = true.
Proof.
  apply nonneg_cases. unfold b64_of_ratio.
  destruct (n <=? 0)%Z; [now left |]. cbv zeta.
  destruct (971 <? _)%Z; [right; right; now left |].
  destruct (if _ =? _ then _ else _)%Z as [| p | p];
    [now left | | now left].
  right. right. right. now do 2 eexists.
Qed.

Lemma b64_of_Q_nonneg q : 0 < q -> fle (Fzero false) (b64_of_Q q) = true.
Proof.
  unfold b64_of_Q, Qlt. cbn [Qnum Qden]. intros H.
  destruct (Qnum q) as [| n | n]; try lia.
  apply b64_of_ratio_nonneg.
Qed.

(** The remainder [min_delay - elapsed], computed when
    [elapsed < min_delay], is neither a NaN nor negative. *)
Lemma remainder_nonneg (d e : pyfloat) :
  flt e d = true -> fle (Fzero false) (fsub d e) = true.
Proof.
  intros H.
  destruct d as [sd | sd md ed | sd | sd], e as [se | se me ee | se | se];
    try discriminate H;
    try (destruct sd, se; try discriminate H; reflexivity);
    try (destruct sd; try discriminate H; reflexivity);
    try (destruct se; try discriminate H; reflexivity).
  - (* d is a zero, e finite: e is negative *)
    destruct (finite_value_sign se me ee) as [v [Ev Hv]].
    destruct (flt_values (Ffinite se me ee) (Fzero sd) v 0 Ev eq_refl)
      as [Hlt _].
    specialize (Hlt H).
    destruct se; [| lra].
    destruct sd; cbn [fsub fneg negb]; apply nonneg_cases;
      right; right; right; now do 2 eexists.
  - (* d finite, e a zero: d is positive *)
    destruct (finite_value_sign sd md ed) as [v [Ev Hv]].
    destruct (flt_values (Fzero se) (Ffinite sd md ed) 0 v eq_refl Ev)
      as [Hlt _].
    specialize (Hlt H).
    destruct sd; [lra |].
    destruct se; cbn [fsub]; apply nonneg_cases;
      right; right; right; now do 2 eexists.
  - (* both finite *)
    destruct (finite_value_sign sd md ed) as [vd [Evd _]].
    destruct (finite_value_sign se me ee) as [ve [Eve _]].
    destruct (flt_values _ _ _ _ Eve Evd) as [Hlt _].
    specialize (Hlt H).
    unfold fsub. rewrite Evd, Eve.
    destruct (Qeq_bool vd ve) eqn:Eq.
    + apply Qeq_bool_iff in Eq. lra.
    + apply b64_of_Q_nonneg. lra.
Qed.

(** X1: [wait] calls [time.sleep] at most once, exactly when the
    elapsed time it computes is below [min_delay]; the duration it asks
    for is then never a NaN and never negative.  If [time.sleep]
    accepts it, [wait] returns with that one sleep on record; if
    [time.sleep] refuses it, [wait] raises that exception and leaves
    the limiter as it was.  Without a sleep [wait] returns. *)
Theorem wait_sleeps_at_most_once (self : RateLimiter) (w : world) :
  let t0 := clock w + next_delay w in
  let elapsed := fsub (b64_of_Q t0) (last_request_time self) in
  let s := fsub (min_delay self) elapsed in
  (flt elapsed (min_delay self) = false ->
   fst (wait (self, w)) = Returns tt
   /\ sleeps (snd (snd (wait (self, w)))) = sleeps w)
  /\ (flt elapsed (min_delay self) = true ->
      fle (Fzero false) s = true
      /\ (sleep_refusal s = None ->
          fst (wait (self, w)) = Returns tt
          /\ sleeps (snd (snd (wait (self, w)))) = (sleeps w ++ [s])%list)
      /\ (forall ex, sleep_refusal s = Some ex ->
          fst (wait (self, w)) = Raises ex
          /\ fst (snd (wait (self, w))) = self
          /\ sleeps (snd (snd (wait (self, w)))) = sleeps w)).
Proof.
  cbv zeta.
  destruct (wait_cases self w) as [[Hno Hw] | [[Hyes [Hacc Hw]] | [Hyes Hw]]];
    cbv zeta in *.
  - split; [| intros H; rewrite Hno in H; discriminate H].
    intros _. rewrite Hw. split; reflexivity.
  - split; [intros H; rewrite Hyes in H; discriminate H |].
    intros _. split; [now apply remainder_nonneg |]. split.
    + intros _. rewrite Hw. split; reflexivity.
    + intros ex Hex. rewrite Hacc in Hex. discriminate Hex.
  - destruct Hw as [ex [Hr Hw]].
    split; [intros H; rewrite Hyes in H; discriminate H |].
    intros _. split; [now apply remainder_nonneg |]. split.
    + intros Hn. rewrite Hr in Hn. discriminate Hn.
    + intros ex' Hex. rewrite Hr in Hex. inversion Hex; subst ex'.
      rewrite Hw. repeat split.
Qed.


(** A call that raises in its function still takes its turn; a call
    whose sleep is refused does not run its function. *)
Example failing_call_is_stamped :
  fst (call failing (init one_second, sample_world))
  = Raises (mkExn RuntimeError "boom")
  /\ last_request_time (fst (snd (call failing (init one_second,
                                                 sample_world))))
     = b64_of_Q (8001 # 8)
  /\ fst (call failing (init (b64_of_decimal false 2 10), sample_world))
     = Raises (mkExn OverflowError
                 "timestamp too large to convert to C _PyTime_t").
Proof. vm_compute. repeat split. Qed.

End PacingMore.

(* ===================================================================== *)
(** ** data_formatter.py: further properties of [normalize_price]         *)
(* ===================================================================== *)

Section StringFacts.

Lemma without_app p a b : without p (a ++ b) = without p a ++ without p b.
Proof.
  induction a as [| c a IH]; [reflexivity |]. cbn [append without].
  rewrite IH. now destruct (p c).
Qed.

Lemma without_none p s :
  forall_chars (fun c => negb (p c)) s = true -> without p s = s.
Proof.
  induction s as [| c s IH]; [reflexivity |]. cbn [forall_chars without].
  intros H. apply andb_true_iff in H. destruct H as [Hc Hs].
  apply negb_true_iff in Hc. now rewrite Hc, IH.
Qed.

Lemma without_all p s : forall_chars p s = true -> without p s = "".
Proof.
  induction s as [| c s IH]; [reflexivity |]. cbn [forall_chars without].
  intros H. apply andb_true_iff in H. destruct H as [Hc Hs].
  now rewrite Hc, IH.
Qed.

Lemma forall_chars_impl (p q : ascii -> bool) s :
  (forall c, p c = true -> q c = true) ->
  forall_chars p s = true -> forall_chars q s = true.
Proof.
  intros Hpq. induction s as [| c s IH]; [reflexivity |]. cbn [forall_chars].
  intros H. apply andb_true_iff in H. destruct H as [Hc Hs].
  now rewrite (Hpq c Hc), IH.
Qed.

Lemma forall_chars_without p q s :
  forall_chars p s = true -> forall_chars p (without q s) = true.
Proof.
  induction s as [| c s IH]; [reflexivity |]. cbn [forall_chars without].
  intros H. apply andb_true_iff in H. destruct H as [Hc Hs].
  destruct (q c); [now apply IH |]. cbn [forall_chars]. now rewrite Hc, IH.
Qed.

Lemma lstrip_all sp s : forall_chars sp s = true -> lstrip_by sp s = "".
Proof.
  induction s as [| c s IH]; [reflexivity |]. cbn [forall_chars lstrip_by].
  intros H. apply andb_true_iff in H. destruct H as [Hc Hs].
  now rewrite Hc, IH.
Qed.

Lemma rstrip_all sp s : forall_chars sp s = true -> rstrip_by sp s = "".
Proof.
  induction s as [| c s IH]; [reflexivity |]. cbn [forall_chars rstrip_by].
  intros H. apply andb_true_iff in H. destruct H as [Hc Hs].
  now rewrite IH, Hc.
Qed.

Lemma lstrip_app_left sp pad s :
  forall_chars sp pad = true -> lstrip_by sp (pad ++ s) = lstrip_by sp s.
Proof.
  induction pad as [| c pad IH]; [reflexivity |].
  cbn [forall_chars append lstrip_by].
  intros H. apply andb_true_iff in H. destruct H as [Hc Hs].
  now rewrite Hc, IH.
Qed.

Lemma rstrip_app_right sp s pad :
  forall_chars sp pad = true -> rstrip_by sp (s ++ pad) = rstrip_by sp s.
Proof.
  intros Hp. induction s as [| c s IH].
  - cbn [append]. now rewrite rstrip_all.
  - cbn [append rstrip_by]. now rewrite IH.
Qed.

(** White space after the text does not survive stripping at both
    ends. *)
Lemma strip_by_app_right sp s pad :
  forall_chars sp pad = true ->
  rstrip_by sp (lstrip_by sp (s ++ pad)) = rstrip_by sp (lstrip_by sp s).
Proof.
  intros Hp. induction s as [| c s IH].
  - cbn [append lstrip_by]. now rewrite (lstrip_all sp pad Hp).
  - cbn [append lstrip_by]. destruct (sp c); [exact IH |].
    change (String c (s ++ pad)) with (String c s ++ pad).
    now apply rstrip_app_right.
Qed.

Lemma strip_padded pad1 s pad2 :
  forall_chars isspace pad1 = true -> forall_chars isspace pad2 = true ->
  strip (pad1 ++ s ++ pad2) = strip s.
Proof.
  intros H1 H2. unfold strip.
  now rewrite lstrip_app_left, strip_by_app_right.
Qed.

(** Neither price symbol is white space. *)
Lemma space_not_symbol c : isspace c = true -> is_price_symbol c = false.
Proof.
  intros Hs. unfold is_price_symbol.
  destruct (Ascii.eqb c "$") eqn:E1.
  - apply Ascii.eqb_eq in E1. subst c. discriminate Hs.
  - destruct (Ascii.eqb c ",") eqn:E2; [| reflexivity].
    apply Ascii.eqb_eq in E2. subst c. discriminate Hs.
Qed.

End StringFacts.

Section NormalizePriceMore.
Import DataFormatter.

(** [normalize_price] in terms of [float] on the cleaned string. *)
Lemma normalize_price_via_float (s : string) :
  normalize_price s
  = match py_float (strip (without is_price_symbol s)) with
    | Returns f => Returns (Some f)
    | Raises _ => Returns None
    end.
Proof.
  unfold normalize_price. rewrite cleaned_without.
  destruct s as [| c s]; [reflexivity |]. cbn [truthy negb].
  destruct (py_float _) as [f | e] eqn:E; [reflexivity |].
  apply py_float_raises in E. subst e. reflexivity.
Qed.

(** X5: the result of [normalize_price] is decided by [float] on the
    cleaned string alone: the float if the conversion succeeds, [None]
    if it raises.  The guard on the empty string changes nothing, the
    empty string being one [float] rejects. *)
Theorem normalize_price_by_cleaned (s : string) :
  normalize_price s
  = match py_float (strip (without is_price_symbol s)) with
    | Returns f => Returns (Some f)
    | Raises _ => Returns None
    end.
Proof.
  unfold normalize_price. rewrite cleaned_without.
  destruct s as [| c s].
  - (* the guard answers; [float] would have refused the empty string *)
    reflexivity.
  - cbn [truthy negb].
    destruct (py_float _) as [f | e] eqn:E; [reflexivity |].
    apply py_float_raises in E. subst e. reflexivity.
Qed.

(** X6: white space around a price does not matter: padding a string
    with white space on either side leaves the result of
    [normalize_price] as it is. *)
Theorem normalize_price_ignores_padding (pad1 s pad2 : string) :
  forall_chars isspace pad1 = true ->
  forall_chars isspace pad2 = true ->
  normalize_price (pad1 ++ s ++ pad2) = normalize_price s.
Proof.
  intros H1 H2. rewrite !normalize_price_via_float, !without_app.
  rewrite (without_none _ pad1), (without_none _ pad2).
  - now rewrite strip_padded.
  - apply (forall_chars_impl isspace); [| exact H2].
    intros c Hc. now rewrite space_not_symbol.
  - apply (forall_chars_impl isspace); [| exact H1].
    intros c Hc. now rewrite space_not_symbol.
Qed.

Lemma normalize_price_ignores_padding_witness :
  normalize_price (("  " ++ String (ascii_of_nat 9) "") ++ "$7" ++ " ")
  = normalize_price "$7".
Proof.
  apply (normalize_price_ignores_padding
           ("  " ++ String (ascii_of_nat 9) "") "$7" " ");
    reflexivity.
Defined.

(** X7: a string made of nothing but dollar signs, commas and white
    space has no number in it: [normalize_price] gives [None]. *)
Theorem normalize_price_symbols_only (s : string) :
  forall_chars (fun c => is_price_symbol c || isspace c) s = true ->
  normalize_price s = Returns None.
Proof.
  intros H. rewrite normalize_price_via_float.
  assert (Hsp : forall_chars isspace (without is_price_symbol s) = true).
  { clear -H. induction s as [| c s IH]; [reflexivity |].
    cbn [forall_chars without] in *.
    apply andb_true_iff in H. destruct H as [Hc Hs].
    destruct (is_price_symbol c) eqn:E; [now apply IH |].
    cbn [forall_chars]. cbn [orb] in Hc. now rewrite Hc, IH. }
  unfold strip. rewrite (lstrip_all _ _ Hsp). reflexivity.
Qed.

Lemma normalize_price_symbols_only_witness :
  normalize_price " $ ,, $" = Returns None.
Proof.
  apply (normalize_price_symbols_only " $ ,, $"). reflexivity.
Defined.

End NormalizePriceMore.

Section DigitFacts.

Ltac by_bits c :=
  destruct c as [b0 b1 b2 b3 b4 b5 b6 b7];
  destruct b0, b1, b2, b3, b4, b5, b6, b7.

Ltac decide_codes :=
  repeat match goal with
         | |- context [?a <=? ?b] => destruct (Z.leb_spec a b)
         | |- context [?a <? ?b] => destruct (Z.ltb_spec a b)
         | |- context [?a =? ?b] => destruct (Z.eqb_spec a b)
         end; try lia; try reflexivity.

Lemma digit_code c : isdigit c = true -> 48 <= code c <= 57.
Proof.
  unfold isdigit. intros H. apply andb_true_iff in H. destruct H as [H1 H2].
  apply Z.leb_le in H1, H2. lia.
Qed.

Lemma digit_not_space c : isdigit c = true -> isspace c = false.
Proof.
  intros H. apply digit_code in H. unfold isspace. cbv zeta. decide_codes.
Qed.

Lemma digit_not_c_space c : isdigit c = true -> c_isspace c = false.
Proof.
  intros H. apply digit_code in H. unfold c_isspace. cbv zeta. decide_codes.
Qed.

Lemma digit_low c : isdigit c = true -> (127 <? code c) = false.
Proof. intros H. apply digit_code in H. decide_codes. Qed.

Lemma digit_not_underscore c : isdigit c = true -> Ascii.eqb c "_" = false.
Proof.
  intros H. destruct (Ascii.eqb c "_") eqn:E; [| reflexivity].
  apply Ascii.eqb_eq in E. subst c. discriminate H.
Qed.

Lemma take_sign_unsigned c t :
  Ascii.eqb c "-" = false -> Ascii.eqb c "+" = false ->
  take_sign (String c t) = (false, String c t).
Proof.
  by_bits c; cbn; intros H1 H2; try discriminate; reflexivity.
Qed.

Lemma take_sign_digit c t :
  isdigit c = true -> take_sign (String c t) = (false, String c t).
Proof.
  intros H. apply take_sign_unsigned.
  - destruct (Ascii.eqb c "-") eqn:E; [| reflexivity].
    apply Ascii.eqb_eq in E. subst c. discriminate H.
  - destruct (Ascii.eqb c "+") eqn:E; [| reflexivity].
    apply Ascii.eqb_eq in E. subst c. discriminate H.
Qed.

Lemma blank_high_spaces_digits t :
  forall_chars isdigit t = true -> blank_high_spaces t = t.
Proof.
  induction t as [| c t IH]; [reflexivity |]. cbn [forall_chars blank_high_spaces].
  intros H. apply andb_true_iff in H. destruct H as [Hc Ht].
  now rewrite (digit_low c Hc), IH.
Qed.

Lemma drop_underscores_digits t :
  forall_chars isdigit t = true -> drop_underscores t = t.
Proof.
  induction t as [| c t IH]; [reflexivity |]. cbn [forall_chars drop_underscores].
  intros H. apply andb_true_iff in H. destruct H as [Hc Ht].
  now rewrite (digit_not_underscore c Hc), IH.
Qed.

(** After a digit, a run of digits passes the underscore check. *)
Lemma underscores_ok_after_digit t p :
  isdigit p = true -> forall_chars isdigit t = true ->
  underscores_ok (Some p) t = true.
Proof.
  revert p. induction t as [| c t IH]; intros p Hp H.
  - cbn [underscores_ok]. revert Hp. by_bits p; intros Hp;
      try discriminate Hp; reflexivity.
  - cbn [forall_chars] in H. apply andb_true_iff in H. destruct H as [Hc Ht].
    cbn [underscores_ok]. rewrite (digit_not_underscore c Hc), Hc, orb_true_r.
    cbn [andb]. now apply IH.
Qed.

Lemma underscores_ok_digits prev c t :
  isdigit c = true -> forall_chars isdigit t = true ->
  underscores_ok prev (String c t) = true.
Proof.
  intros Hc Ht. cbn [underscores_ok].
  rewrite (digit_not_underscore c Hc), Hc, orb_true_r. cbn [andb].
  now apply underscores_ok_after_digit.
Qed.

Lemma lstrip_digit sp c t : sp c = false -> lstrip_by sp (String c t) = String c t.
Proof. intros H. cbn [lstrip_by]. now rewrite H. Qed.

Lemma rstrip_none sp t :
  forall_chars (fun c => negb (sp c)) t = true -> rstrip_by sp t = t.
Proof.
  induction t as [| c t IH]; [reflexivity |]. cbn [forall_chars rstrip_by].
  intros H. apply andb_true_iff in H. destruct H as [Hc Ht].
  apply negb_true_iff in Hc. rewrite (IH Ht), Hc. now destruct t.
Qed.

Lemma take_digits_all t :
  forall acc n, forall_chars isdigit t = true ->
    take_digits t acc n
    = (number_of_digits t acc, n + Z.of_nat (String.length t), "").
Proof.
  induction t as [| c t IH]; intros acc n H.
  - cbn. now rewrite Z.add_0_r.
  - cbn [forall_chars] in H. apply andb_true_iff in H. destruct H as [Hc Ht].
    cbn [take_digits number_of_digits String.length]. rewrite Hc, (IH _ _ Ht).
    f_equal. f_equal. lia.
Qed.

Lemma parse_number_digits c t :
  forall_chars isdigit (String c t) = true ->
  parse_number (String c t) = Some (number_of_digits (String c t) 0, 0).
Proof.
  intros H. unfold parse_number. rewrite (take_digits_all _ _ _ H).
  cbn [String.length].
  destruct (_ =? 0) eqn:E; [apply Z.eqb_eq in E; lia | reflexivity].
Qed.

(** [float] on a run of digits, with or without a minus sign. *)
Lemma py_float_digits (neg : bool) c t :
  forall_chars isdigit (String c t) = true ->
  py_float ((if neg then "-" else "") ++ String c t)
  = Returns (b64_of_decimal neg (number_of_digits (String c t) 0) 0).
Proof.
  intros H. pose proof H as H'.
  cbn [forall_chars] in H'. apply andb_true_iff in H'. destruct H' as [Hc Ht].
  assert (Hns : forall_chars (fun a => negb (c_isspace a)) (String c t) = true).
  { apply (forall_chars_impl isdigit); [| exact H].
    intros a Ha. now rewrite digit_not_c_space. }
  unfold py_float. destruct neg; cbn [append blank_high_spaces].
  - change (127 <? code "-") with false. cbn [andb].
    fold (blank_high_spaces t). rewrite (digit_low c Hc). cbn [andb].
    rewrite (blank_high_spaces_digits t Ht).
    assert (Hu : underscores_ok None (String "-" (String c t)) = true).
    { cbn [underscores_ok]. change (Ascii.eqb "-" "_") with false.
      cbn [negb orb andb]. rewrite (digit_not_underscore c Hc).
      now apply underscores_ok_after_digit. }
    rewrite Hu. cbn [negb].
    change (drop_underscores (String "-" (String c t)))
      with (String "-"%char (drop_underscores (String c t))).
    rewrite (drop_underscores_digits _ H).
    rewrite lstrip_digit by reflexivity.
    change (rstrip_by c_isspace (String "-" (String c t)))
      with (match rstrip_by c_isspace (String c t) with
            | EmptyString => String "-"%char EmptyString
            | r => String "-"%char r
            end).
    rewrite (rstrip_none _ _ Hns).
    change (take_sign (String "-" (String c t))) with (true, String c t).
    cbv beta iota. now rewrite (parse_number_digits c t H).
  - fold (blank_high_spaces t). rewrite (digit_low c Hc). cbn [andb].
    rewrite (blank_high_spaces_digits t Ht).
    rewrite (underscores_ok_digits None c t Hc Ht). cbn [negb].
    rewrite (drop_underscores_digits _ H).
    rewrite lstrip_digit by (now apply digit_not_c_space).
    rewrite (rstrip_none _ _ Hns).
    rewrite (take_sign_digit c t Hc).
    cbv beta iota. now rewrite (parse_number_digits c t H).
Qed.

Lemma round_half_even_one n : round_half_even n 1 = n.
Proof.
  unfold round_half_even. now rewrite Z.mod_1_r, Z.div_1_r.
Qed.

Lemma number_of_digits_nonneg t :
  forall acc, 0 <= acc -> forall_chars isdigit t = true ->
    0 <= number_of_digits t acc.
Proof.
  induction t as [| c t IH]; intros acc Ha H; [exact Ha |].
  cbn [forall_chars] in H. apply andb_true_iff in H. destruct H as [Hc Ht].
  cbn [number_of_digits]. apply IH; [| exact Ht].
  apply digit_code in Hc. unfold digit_value. lia.
Qed.

(** A whole number below [2^53] is a binary64 number: rounding leaves it
    as it is. *)
Lemma b64_of_decimal_integer (neg : bool) (v : Z) :
  0 <= v < 2 ^ 53 ->
  float_is (b64_of_decimal neg v 0)
           (if neg then (- inject_Z v)%Q else inject_Z v).
Proof.
  intros Hv. unfold b64_of_decimal. cbn [Z.leb Z.compare].
  rewrite Z.pow_0_r, Z.mul_1_r. unfold b64_of_ratio.
  destruct (Z.leb_spec v 0) as [H0 | Hpos].
  - assert (v = 0) by lia. subst v. destruct neg; reflexivity.
  - change (Z.log2 1) with 0. rewrite Z.sub_0_r.
    set (L := Z.log2 v).
    assert (HL : 0 <= L < 53).
    { split; [apply Z.log2_nonneg |].
      apply Z.log2_lt_pow2; [exact Hpos | lia]. }
    pose proof (Z.log2_spec v Hpos) as Hspec. fold L in Hspec.
    cbv zeta.
    destruct (Z.leb_spec 0 L) as [_ | ?]; [| lia].
    rewrite Z.mul_1_l.
    destruct (Z.ltb_spec v (2 ^ L)) as [? | _]; [lia |].
    replace (Z.max (L - 52) (-1074)) with (L - 52) by lia.
    destruct (Z.leb_spec 0 (L - 52)) as [He | He].
    + assert (L = 52) by lia.
      replace (L - 52) with 0 by lia.
      rewrite Z.pow_0_r, round_half_even_one.
      destruct (Z.eqb_spec v (2 ^ 53)) as [? | _]; [lia |].
      cbn [Z.ltb Z.compare].
      destruct v as [| p | p]; try lia.
      unfold float_is, float_to_Q. cbn [Z.leb Z.compare].
      rewrite Z.pow_0_r, Z.mul_1_r. destruct neg; reflexivity.
    + rewrite round_half_even_one.
      replace (- (L - 52)) with (52 - L) by lia.
      assert (Hp : 0 < 2 ^ (52 - L)) by (apply Z.pow_pos_nonneg; lia).
      assert (Hm : v * 2 ^ (52 - L) < 2 ^ 53).
      { replace (2 ^ 53) with (2 ^ (Z.succ L) * 2 ^ (52 - L)).
        - apply Z.mul_lt_mono_pos_r; [exact Hp | lia].
        - rewrite <- Z.pow_add_r by lia. f_equal. lia. }
      destruct (Z.eqb_spec (v * 2 ^ (52 - L)) (2 ^ 53)) as [? | _]; [lia |].
      destruct (Z.ltb_spec 971 (L - 52)) as [? | _]; [lia |].
      destruct (v * 2 ^ (52 - L)) as [| p | p] eqn:Em; try lia.
      unfold float_is, float_to_Q.
      destruct (Z.leb_spec 0 (L - 52)) as [? | _]; [lia |].
      replace (- (L - 52)) with (52 - L) by lia.
      assert (Hq : (Zpos p # Z.to_pos (2 ^ (52 - L)) == inject_Z v)%Q).
      { unfold Qeq. cbn [Qnum Qden inject_Z].
        rewrite Z2Pos.id by exact Hp. lia. }
      destruct neg; [now rewrite Hq | exact Hq].
Qed.

End DigitFacts.

Section NormalizePriceNumbers.
Import DataFormatter.

(** X8: when what is left of a string, once dollar signs, commas and the
    white space around are gone, is a non-empty run of digits,
    [normalize_price] returns the float nearest the number the digits
    write; below [2^53] that float is the number itself. *)
Theorem normalize_price_whole_number (s : string) :
  let t := strip (without is_price_symbol s) in
  t <> "" ->
  forall_chars isdigit t = true ->
  normalize_price s
  = Returns (Some (b64_of_decimal false (number_of_digits t 0) 0))
  /\ (number_of_digits t 0 < 2 ^ 53 ->
      float_is (b64_of_decimal false (number_of_digits t 0) 0)
               (inject_Z (number_of_digits t 0))).
Proof.
  cbv zeta. intros Hne Hd. split.
  - rewrite normalize_price_via_float.
    destruct (strip (without is_price_symbol s)) as [| c t]; [congruence |].
    pose proof (py_float_digits false c t Hd) as Hp. cbn [append] in Hp.
    now rewrite Hp.
  - intros Hlt. apply (b64_of_decimal_integer false).
    split; [| exact Hlt]. apply number_of_digits_nonneg; [lia | exact Hd].
Qed.

Lemma normalize_price_whole_number_witness :
  normalize_price " $1,234,567 "
  = Returns (Some (b64_of_decimal false 1234567 0))
  /\ (1234567 < 2 ^ 53 ->
      float_is (b64_of_decimal false 1234567 0) (inject_Z 1234567)).
Proof.
  apply (normalize_price_whole_number " $1,234,567 ").
  - discriminate.
  - reflexivity.
Defined.

(** X9: the sign is not checked.  When the cleaned string is a minus
    sign before a non-empty run of digits, [normalize_price] returns the
    negative number. *)
Theorem normalize_price_negative (s t : string) :
  strip (without is_price_symbol s) = String "-" t ->
  t <> "" ->
  forall_chars isdigit t = true ->
  normalize_price s
  = Returns (Some (b64_of_decimal true (number_of_digits t 0) 0))
  /\ (number_of_digits t 0 < 2 ^ 53 ->
      float_is (b64_of_decimal true (number_of_digits t 0) 0)
               (- inject_Z (number_of_digits t 0))).
Proof.
  intros Hs Hne Hd. split.
  - rewrite normalize_price_via_float, Hs.
    destruct t as [| c t]; [congruence |].
    pose proof (py_float_digits true c t Hd) as Hp. cbn [append] in Hp.
    now rewrite Hp.
  - intros Hlt. apply (b64_of_decimal_integer true).
    split; [| exact Hlt]. apply number_of_digits_nonneg; [lia | exact Hd].
Qed.

Lemma normalize_price_negative_witness :
  normalize_price "-$1,250"
  = Returns (Some (b64_of_decimal true 1250 0))
  /\ (1250 < 2 ^ 53 ->
      float_is (b64_of_decimal true 1250 0) (- inject_Z 1250)).
Proof.
  apply (normalize_price_negative "-$1,250" "1250").
  - reflexivity.
  - discriminate.
  - reflexivity.
Defined.

Ltac by_all_bits c :=
  destruct c as [b0 b1 b2 b3 b4 b5 b6 b7];
  destruct b0, b1, b2, b3, b4, b5, b6, b7.

(** The letters that lower-case to the letters of inf, infinity, nan. *)
Lemma lower_letters c :
  (lower c = "i"%char -> c = "i"%char \/ c = "I"%char)
  /\ (lower c = "n"%char -> c = "n"%char \/ c = "N"%char)
  /\ (lower c = "f"%char -> c = "f"%char \/ c = "F"%char)
  /\ (lower c = "t"%char -> c = "t"%char \/ c = "T"%char)
  /\ (lower c = "y"%char -> c = "y"%char \/ c = "Y"%char)
  /\ (lower c = "a"%char -> c = "a"%char \/ c = "A"%char).
Proof.
  by_all_bits c; repeat split; intros H; vm_compute in H;
    try discriminate H; auto.
Qed.

Lemma lower_str_empty s : lower_str s = "" -> s = "".
Proof. destruct s; [reflexivity | discriminate]. Qed.

Ltac split_letters H :=
  repeat match type of H with
         | lower_str ?s = String _ _ =>
             let c := fresh "c" in
             destruct s as [| c s]; [discriminate H |];
             cbn [lower_str] in H;
             let Hc := fresh "Hc" in
             injection H as Hc H
         end;
  apply lower_str_empty in H; subst.

Ltac letter_cases :=
  repeat match goal with
         | Hc : lower ?c = _ |- _ =>
             first
               [ destruct (proj1 (lower_letters c) Hc) as [-> | ->]
               | destruct (proj1 (proj2 (lower_letters c)) Hc) as [-> | ->]
               | destruct (proj1 (proj2 (proj2 (lower_letters c))) Hc)
                   as [-> | ->]
               | destruct (proj1 (proj2 (proj2 (proj2 (lower_letters c)))) Hc)
                   as [-> | ->]
               | destruct (proj1 (proj2 (proj2 (proj2 (proj2
                             (lower_letters c))))) Hc) as [-> | ->]
               | destruct (proj2 (proj2 (proj2 (proj2 (proj2
                             (lower_letters c))))) Hc) as [-> | ->] ];
             clear Hc
         end.

(** X10: the words of [float] are prices too.  When the cleaned string
    spells inf or infinity, in any letter case, [normalize_price]
    returns positive infinity; when it spells nan, it returns a NaN. *)
Theorem normalize_price_not_finite (s : string) :
  let word := lower_str (strip (without is_price_symbol s)) in
  (word = "inf" \/ word = "infinity" ->
   normalize_price s = Returns (Some (Finf false)))
  /\ (word = "nan" -> normalize_price s = Returns (Some (Fnan false))).
Proof.
  cbv zeta. rewrite normalize_price_via_float.
  generalize (strip (without is_price_symbol s)). intros t. split.
  - intros [H | H]; split_letters H; letter_cases; vm_compute; reflexivity.
  - intros H. split_letters H; letter_cases; vm_compute; reflexivity.
Qed.

Lemma normalize_price_not_finite_witness :
  normalize_price " $Infinity" = Returns (Some (Finf false))
  /\ normalize_price "NaN," = Returns (Some (Fnan false)).
Proof.
  destruct (normalize_price_not_finite " $Infinity") as [H1 _].
  destruct (normalize_price_not_finite "NaN,") as [_ H2].
  split; [apply H1; right; reflexivity | apply H2; reflexivity].
Defined.

End NormalizePriceNumbers.

(* ===================================================================== *)
(** ** selenium_utils.py: the outcome of each utility                     *)
(* ===================================================================== *)

Section BoundedWaitsMore.
Import SeleniumUtils.
Context {Driver Element : Type} `{WebDriver Driver Element}.

(** X11: what a result of a utility tells.  [wait_for_element],
    [wait_for_clickable] and [safe_find_element] return an element
    exactly when the driver returned that element, and [None] exactly
    when the driver raised the exception the utility handles (or a
    subclass): [None] has no other cause.  [safe_find_elements] returns
    what the driver returned, or the empty list over a handled
    exception. *)
Theorem bounded_waits_results
    (driver : Driver) (by_ : By) (value : string) (timeout : Z) :
  (forall el, wait_for_element driver by_ value timeout = Returns (Some el)
     <-> WebDriverWait_until driver timeout
           (presence_of_element_located (by_, value)) = Returns el)
  /\ (wait_for_element driver by_ value timeout = Returns None
      <-> exists e, WebDriverWait_until driver timeout
                      (presence_of_element_located (by_, value)) = Raises e
                    /\ issubclass (exn_cls e) TimeoutException = true)
  /\ (forall el, wait_for_clickable driver by_ value timeout = Returns (Some el)
      <-> WebDriverWait_until driver timeout
            (element_to_be_clickable (by_, value)) = Returns el)
  /\ (wait_for_clickable driver by_ value timeout = Returns None
      <-> exists e, WebDriverWait_until driver timeout
                      (element_to_be_clickable (by_, value)) = Raises e
                    /\ issubclass (exn_cls e) TimeoutException = true)
  /\ (forall el, safe_find_element driver by_ value = Returns (Some el)
      <-> find_element driver by_ value = Returns el)
  /\ (safe_find_element driver by_ value = Returns None
      <-> exists e, find_element driver by_ value = Raises e
                    /\ issubclass (exn_cls e) NoSuchElementException = true)
  /\ (forall els, safe_find_elements driver by_ value = Returns els
      <-> find_elements driver by_ value = Returns els
          \/ (els = []
              /\ exists e, find_elements driver by_ value = Raises e
                 /\ issubclass (exn_cls e) NoSuchElementException = true)).
Proof.
  unfold wait_for_element, wait_for_clickable, safe_find_element,
    safe_find_elements.
  split; [apply optional_outcomes |].
  split; [apply optional_outcomes |].
  split; [apply optional_outcomes |].
  split; [apply optional_outcomes |].
  split; [apply optional_outcomes |].
  split; [apply optional_outcomes |].
  intros els. destruct (find_elements driver by_ value) as [l | e];
    cbn [try_except].
  - split.
    + intros H1. now left.
    + intros [H1 | [_ [e [H1 _]]]]; [exact H1 | discriminate H1].
  - destruct (issubclass (exn_cls e) NoSuchElementException) eqn:E; split.
    + intros H1. inversion H1. right. split; [reflexivity |]. now exists e.
    + intros [H1 | [-> _]]; [discriminate H1 | reflexivity].
    + discriminate.
    + intros [H1 | [_ [e' [H1 H2]]]]; [discriminate H1 |].
      inversion H1; subst. congruence.
Qed.

(** X12: what a utility lets through.  A utility raises [e] exactly when
    the driver raised [e] and [e] is not of the class the utility
    handles: a time-out escapes the two lookups, a missing element or a
    dead session escapes the two waits, unchanged. *)
Theorem bounded_waits_propagation
    (driver : Driver) (by_ : By) (value : string) (timeout : Z) (e : exn) :
  (wait_for_element driver by_ value timeout = Raises e
   <-> WebDriverWait_until driver timeout
         (presence_of_element_located (by_, value)) = Raises e
       /\ issubclass (exn_cls e) TimeoutException = false)
  /\ (wait_for_clickable driver by_ value timeout = Raises e
      <-> WebDriverWait_until driver timeout
            (element_to_be_clickable (by_, value)) = Raises e
          /\ issubclass (exn_cls e) TimeoutException = false)
  /\ (safe_find_element driver by_ value = Raises e
      <-> find_element driver by_ value = Raises e
          /\ issubclass (exn_cls e) NoSuchElementException = false)
  /\ (safe_find_elements driver by_ value = Raises e
      <-> find_elements driver by_ value = Raises e
          /\ issubclass (exn_cls e) NoSuchElementException = false).
Proof.
  unfold wait_for_element, wait_for_clickable, safe_find_element,
    safe_find_elements.
  split; [apply optional_outcomes |].
  split; [apply optional_outcomes |].
  split; [apply optional_outcomes |].
  destruct (find_elements driver by_ value) as [l | e0]; cbn [try_except].
  - split; [discriminate | intros [H1 _]; discriminate H1].
  - destruct (issubclass (exn_cls e0) NoSuchElementException) eqn:E; split.
    + discriminate.
    + intros [H1 H2]. inversion H1; subst. congruence.
    + intros H1. inversion H1; subst. now split.
    + intros [H1 _]. exact H1.
Qed.

End BoundedWaitsMore.

(* ===================================================================== *)
(** ** otas.py: where the whitelist is read from                          *)
(* ===================================================================== *)

Section WhitelistPath.
Import Otas.

Lemma removelast_snoc {A} (l : list A) (a : A) : removelast (l ++ [a]) = l.
Proof. apply removelast_last. Qed.

(** X13: for a module file three levels below a directory (as
    [scrapers/common/otas.py] is below the project root), the file read
    is [shared/otas.json] in that directory, whatever the names of the
    two directories and of the file.  For a file less deep, it is
    [shared/otas.json] right below the anchor. *)
Theorem otas_json_path_below_root
    (anchor : bool) (root : list string) (package subpackage file : string) :
  otas_json_path (mkPath anchor (root ++ [package; subpackage; file]))
  = mkPath anchor (root ++ ["shared"; "otas.json"])
  /\ otas_json_path (mkPath anchor [subpackage; file])
     = mkPath anchor ["shared"; "otas.json"]
  /\ otas_json_path (mkPath anchor [file])
     = mkPath anchor ["shared"; "otas.json"]
  /\ otas_json_path (mkPath anchor [])
     = mkPath anchor ["shared"; "otas.json"].
Proof.
  split; [| repeat split].
  unfold otas_json_path, parent, joinpath. cbn [absolute parts].
  replace (root ++ [package; subpackage; file])%list
    with (((root ++ [package]) ++ [subpackage]) ++ [file])%list
    by (now rewrite <- !app_assoc).
  rewrite !removelast_snoc. now rewrite <- app_assoc.
Qed.

End WhitelistPath.

(* ===================================================================== *)
(** ** data_formatter.py: prices with a decimal point                     *)
(* ===================================================================== *)

Section DecimalFacts.

Ltac by_bits' c :=
  destruct c as [b0 b1 b2 b3 b4 b5 b6 b7];
  destruct b0, b1, b2, b3, b4, b5, b6, b7.

Lemma decimal_char_cases c :
  is_decimal_char c = true -> isdigit c = true \/ c = "."%char.
Proof.
  unfold is_decimal_char. intros H. apply orb_true_iff in H.
  destruct H as [H | H]; [now left | right; now apply Ascii.eqb_eq].
Qed.

Lemma blank_high_spaces_low s :
  forall_chars (fun c => negb (127 <? code c)) s = true ->
  blank_high_spaces s = s.
Proof.
  induction s as [| c s IH]; [reflexivity |].
  cbn [forall_chars blank_high_spaces].
  intros H. apply andb_true_iff in H. destruct H as [Hc Hs].
  apply negb_true_iff in Hc. now rewrite Hc, IH.
Qed.

Lemma drop_underscores_none s :
  forall_chars (fun c => negb (Ascii.eqb c "_")) s = true ->
  drop_underscores s = s.
Proof.
  induction s as [| c s IH]; [reflexivity |].
  cbn [forall_chars drop_underscores].
  intros H. apply andb_true_iff in H. destruct H as [Hc Hs].
  apply negb_true_iff in Hc. now rewrite Hc, IH.
Qed.

Lemma underscores_ok_end p :
  Ascii.eqb p "_" = false -> underscores_ok (Some p) "" = true.
Proof.
  cbn [underscores_ok]. by_bits' p; intros Hp; try discriminate Hp;
    reflexivity.
Qed.

Lemma underscores_ok_step (prev : option ascii) c s :
  Ascii.eqb c "_" = false ->
  match prev with Some p => Ascii.eqb p "_" = false | None => True end ->
  underscores_ok prev (String c s) = underscores_ok (Some c) s.
Proof.
  intros Hc Hp. cbn [underscores_ok]. rewrite Hc.
  destruct prev as [p |]; [| reflexivity].
  revert Hp. by_bits' p; intros Hp; try discriminate Hp; reflexivity.
Qed.

(** Without underscores there is nothing for the check to refuse. *)
Lemma underscores_ok_none s :
  forall prev,
    match prev with Some p => Ascii.eqb p "_" = false | None => True end ->
    forall_chars (fun c => negb (Ascii.eqb c "_")) s = true ->
    underscores_ok prev s = true.
Proof.
  induction s as [| c s IH]; intros prev Hp H.
  - destruct prev as [p |]; [now apply underscores_ok_end | reflexivity].
  - cbn [forall_chars] in H. apply andb_true_iff in H. destruct H as [Hc Hs].
    apply negb_true_iff in Hc.
    rewrite (underscores_ok_step prev c s Hc Hp). now apply IH.
Qed.

Lemma decimal_char_facts c :
  is_decimal_char c = true ->
  (127 <? code c) = false /\ Ascii.eqb c "_" = false
  /\ c_isspace c = false /\ isspace c = false
  /\ Ascii.eqb c "-" = false /\ Ascii.eqb c "+" = false.
Proof.
  intros H. destruct (decimal_char_cases c H) as [Hd | ->].
  - repeat split.
    + now apply digit_low.
    + now apply digit_not_underscore.
    + now apply digit_not_c_space.
    + now apply digit_not_space.
    + destruct (Ascii.eqb c "-") eqn:E; [| reflexivity].
      apply Ascii.eqb_eq in E. subst c. discriminate Hd.
    + destruct (Ascii.eqb c "+") eqn:E; [| reflexivity].
      apply Ascii.eqb_eq in E. subst c. discriminate Hd.
  - repeat split.
Qed.

Lemma take_digits_prefix ip :
  forall r acc n, forall_chars isdigit ip = true ->
    take_digits (ip ++ r) acc n
    = take_digits r (number_of_digits ip acc)
                  (n + Z.of_nat (String.length ip)).
Proof.
  induction ip as [| c ip IH]; intros r acc n H.
  - cbn. now rewrite Z.add_0_r.
  - cbn [forall_chars] in H. apply andb_true_iff in H. destruct H as [Hc Ht].
    cbn [append take_digits number_of_digits String.length].
    rewrite Hc, (IH _ _ _ Ht). f_equal. lia.
Qed.

Lemma number_of_digits_app ip fp acc :
  number_of_digits (ip ++ fp) acc
  = number_of_digits fp (number_of_digits ip acc).
Proof.
  revert acc. induction ip as [| c ip IH]; intros acc; [reflexivity |].
  cbn [append number_of_digits]. apply IH.
Qed.

Lemma forall_chars_app p a b :
  forall_chars p (a ++ b) = forall_chars p a && forall_chars p b.
Proof.
  induction a as [| c a IH]; [reflexivity |]. cbn [append forall_chars].
  now rewrite IH, andb_assoc.
Qed.

Lemma digits_are_decimal s :
  forall_chars isdigit s = true -> forall_chars is_decimal_char s = true.
Proof.
  apply forall_chars_impl. intros c Hc. unfold is_decimal_char.
  now rewrite Hc.
Qed.

(** Digits, a point, digits: the number [float] reads. *)
Lemma parse_number_decimal ip fp :
  forall_chars isdigit ip = true -> forall_chars isdigit fp = true ->
  ip ++ fp <> "" ->
  parse_number (ip ++ String "." fp)
  = Some (number_of_digits (ip ++ fp) 0, - Z.of_nat (String.length fp)).
Proof.
  intros Hi Hf Hne. unfold parse_number.
  rewrite (take_digits_prefix ip _ _ _ Hi).
  cbn [take_digits]. change (isdigit ".") with false. cbv beta iota.
  rewrite (take_digits_all fp _ _ Hf). rewrite !Z.add_0_l.
  assert (Hlen : (0 < String.length ip + String.length fp)%nat).
  { destruct ip; [destruct fp; [now elim Hne | cbn; lia] | cbn; lia]. }
  destruct (_ =? 0) eqn:E; [apply Z.eqb_eq in E; lia |].
  now rewrite number_of_digits_app.
Qed.

Lemma py_float_decimal ip fp :
  forall_chars isdigit ip = true -> forall_chars isdigit fp = true ->
  ip ++ fp <> "" ->
  py_float (ip ++ String "." fp)
  = Returns (b64_of_decimal false (number_of_digits (ip ++ fp) 0)
                            (- Z.of_nat (String.length fp))).
Proof.
  intros Hi Hf Hne.
  assert (Hall : forall_chars is_decimal_char (ip ++ String "." fp) = true).
  { rewrite forall_chars_app. cbn [forall_chars].
    rewrite (digits_are_decimal ip Hi), (digits_are_decimal fp Hf).
    reflexivity. }
  unfold py_float.
  rewrite blank_high_spaces_low.
  2:{ apply (forall_chars_impl is_decimal_char); [| exact Hall].
      intros c Hc. apply decimal_char_facts in Hc.
      destruct Hc as [-> _]. reflexivity. }
  assert (Hnu : forall_chars (fun c => negb (Ascii.eqb c "_"))
                             (ip ++ String "." fp) = true).
  { apply (forall_chars_impl is_decimal_char); [| exact Hall].
    intros c Hc. apply decimal_char_facts in Hc.
    destruct Hc as (_ & -> & _). reflexivity. }
  rewrite (underscores_ok_none _ None I Hnu). cbn [negb].
  rewrite (drop_underscores_none _ Hnu).
  assert (Hns : forall_chars (fun c => negb (c_isspace c))
                             (ip ++ String "." fp) = true).
  { apply (forall_chars_impl is_decimal_char); [| exact Hall].
    intros c Hc. apply decimal_char_facts in Hc.
    destruct Hc as (_ & _ & -> & _). reflexivity. }
  destruct (ip ++ String "." fp) as [| c t] eqn:Es.
  { destruct ip; discriminate Es. }
  cbn [forall_chars] in Hall. apply andb_true_iff in Hall.
  destruct Hall as [Hc _]. apply decimal_char_facts in Hc.
  destruct Hc as (_ & _ & Hsp & _ & Hm & Hpl).
  rewrite (lstrip_digit _ c t Hsp), (rstrip_none _ _ Hns).
  rewrite (take_sign_unsigned c t Hm Hpl). cbv beta iota.
  rewrite <- Es. now rewrite (parse_number_decimal ip fp Hi Hf Hne).
Qed.

End DecimalFacts.

Section NormalizePriceDecimal.
Import DataFormatter.

(** X14: a price with a decimal point.  When the cleaned string is a run
    of digits, a point and a run of digits (one of the runs may be
    empty), [normalize_price] returns the float nearest the decimal
    number written: all the digits as a whole number, scaled down by as
    many powers of ten as there are digits after the point. *)
Theorem normalize_price_decimal (s ip fp : string) :
  strip (without is_price_symbol s) = ip ++ String "." fp ->
  forall_chars isdigit ip = true ->
  forall_chars isdigit fp = true ->
  ip ++ fp <> "" ->
  normalize_price s
  = Returns (Some (b64_of_decimal false (number_of_digits (ip ++ fp) 0)
                                  (- Z.of_nat (String.length fp)))).
Proof.
  intros Hs Hi Hf Hne. rewrite normalize_price_via_float, Hs.
  now rewrite (py_float_decimal ip fp Hi Hf Hne).
Qed.

Lemma normalize_price_decimal_witness :
  normalize_price " $12,345.60"
  = Returns (Some (b64_of_decimal false 1234560 (-2))).
Proof.
  apply (normalize_price_decimal " $12,345.60" "12345" "60");
    [reflexivity | reflexivity | reflexivity | discriminate].
Defined.

(** A point with no digit around it is no number. *)
Example normalize_price_lone_point :
  normalize_price "$." = Returns None /\ normalize_price ".5" <> Returns None
  /\ normalize_price "5." <> Returns None.
Proof. vm_compute. repeat split; discriminate. Qed.

End NormalizePriceDecimal.
